(** * taxifaremodel: the model.py / task.py package of f_cloudmle.ipynb

    A shallow embedding of the two Python files the notebook writes
    ([taxifaremodel/model.py] and [taxifaremodel/task.py]) and the
    properties of them that the specification states.

    Python values are kept as a small tagged union, dictionaries are
    [gmap string _], exceptions are an error monad, and the file system the
    training run touches is an explicit state.  Python floats and float32
    tensors are exact rationals, and the tensors of a metric exact reals: the
    development is about which value goes where, not about rounding.  What
    belongs to TensorFlow or to Python's own text handling is a parameter:
    the CSV kernel, the file patterns, the training loop, [int()]. *)

From Stdlib Require Import ZArith QArith Qround Reals String Ascii List.
From stdpp Require Import base option list gmap strings fin_maps.

Local Open Scope Z_scope.
Local Open Scope string_scope.

(** ** Python values and exceptions *)

#[warnings="-register-all"]
Inductive pyval :=
  | PyNone
  | PyInt (z : Z)
  | PyFloat (q : Q)
  | PyStr (s : string)
  | PyList (l : list pyval).

Inductive exn :=
  | KeyError (key : string)
  | TypeError
  | ValueError
  | InvalidArgumentError
  | FileNotFoundError
  | NotADirectoryError
  | ZeroDivisionError
  | SystemExit
  | OpError (msg : string).

Inductive result (A : Type) :=
  | Ok (a : A)
  | Raise (e : exn).
Arguments Ok {A} a.
Arguments Raise {A} e.

#[export] Instance result_ret : MRet result := fun A a => Ok a.
#[export] Instance result_bind : MBind result := fun A B f r =>
  match r with
  | Ok a => f a
  | Raise e => Raise e
  end.

Fixpoint mapR {A B : Type} (f : A → result B) (l : list A) : result (list B) :=
  match l with
  | [] => Ok []
  | a :: l' => b ← f a; bs ← mapR f l'; mret (b :: bs)
  end.

(** [dict(pairs)]: later pairs overwrite earlier ones. *)
Definition dict {V : Type} (pairs : list (string * V)) : gmap string V :=
  foldl (fun m p => <[p.1 := p.2]> m) ∅ pairs.

(** [d[key]] *)
Definition getitem {V : Type} (d : gmap string V) (key : string) : result V :=
  match d !! key with
  | Some v => Ok v
  | None => Raise (KeyError key)
  end.

(** [d.pop(key)]: the value, and the dictionary without the key. *)
Definition dict_pop {V : Type} (d : gmap string V) (key : string)
  : result (V * gmap string V) :=
  match d !! key with
  | Some v => Ok (v, delete key d)
  | None => Raise (KeyError key)
  end.

(** ** Tensors and [tf.decode_csv] *)

Inductive DType := DT_INT32 | DT_FLOAT | DT_STRING.

Inductive tensor :=
  | TInt32 (z : Z)
  | TFloat32 (q : Q)
  | TString (s : string).

Definition dtype (t : tensor) : DType :=
  match t with
  | TInt32 _ => DT_INT32
  | TFloat32 _ => DT_FLOAT
  | TString _ => DT_STRING
  end.

(** The parts of TensorFlow's CSV kernel that the package does not fix:
    how a record is cut into fields (delimiters, quoting) and how the text
    of a field is read as a number. *)
Class CsvKernel := {
  ExtractFields : string → result (list string);
  safe_strto32 : string → option Z;
  safe_strtof : string → option Q;
}.

(** A [record_defaults] entry as TensorFlow sees it: the dtype inferred
    from the Python list, and the default itself when the list has one
    element (an empty list marks a required column). *)
Definition convert_default (d : list pyval) : result (DType * option tensor) :=
  match d with
  | [] => Ok (DT_FLOAT, None)
  | [PyInt z] => Ok (DT_INT32, Some (TInt32 z))
  | [PyFloat q] => Ok (DT_FLOAT, Some (TFloat32 q))
  | [PyStr s] => Ok (DT_STRING, Some (TString s))
  | [PyNone] => Raise TypeError
  | [PyList _] => Raise ValueError
  | _ => Raise InvalidArgumentError
  end.

Section DecodeCsv.
Context `{CsvKernel}.

(** One field of a record: an empty field takes the column's default, and
    fails when the column has none; any other field is read at the dtype
    of the default. *)
Definition decode_field (fd : string * (DType * option tensor)) : result tensor :=
  let '(field, (dt, default)) := fd in
  if decide (field = "") then
    match default with
    | Some t => Ok t
    | None => Raise InvalidArgumentError
    end
  else
    match dt with
    | DT_INT32 =>
        match safe_strto32 field with
        | Some z => Ok (TInt32 z)
        | None => Raise InvalidArgumentError
        end
    | DT_FLOAT =>
        match safe_strtof field with
        | Some q => Ok (TFloat32 q)
        | None => Raise InvalidArgumentError
        end
    | DT_STRING => Ok (TString field)
    end.

(** [tf.decode_csv(records, record_defaults)] on one record: one output
    per default, and a record with another number of fields is an
    error. *)
Definition decode_csv (records : string) (record_defaults : list (list pyval))
  : result (list tensor) :=
  defaults ← mapR convert_default record_defaults;
  fields ← ExtractFields records;
  if decide (length fields = length defaults) then
    mapR decode_field (zip fields defaults)
  else Raise InvalidArgumentError.
End DecodeCsv.

(** ** model.py: the CSV schema *)

Definition CSV_COLUMN_NAMES : list string :=
  ["fare_amount"; "dayofweek"; "hourofday"; "pickuplon"; "pickuplat";
   "dropofflon"; "dropofflat"].

Definition CSV_DEFAULTS : list (list pyval) :=
  [[PyFloat 0.0]; [PyInt 1]; [PyInt 0]; [PyFloat (-74.0)]; [PyFloat 40.0];
   [PyFloat (-74.0)]; [PyFloat 40.7]].

(** [CSV_COLUMN_NAMES[1:]] *)
Definition FEATURE_NAMES : list string := drop 1 CSV_COLUMN_NAMES.

Section ParseRow.
Context `{CsvKernel}.

Definition parse_row (row : string) : result (gmap string tensor * tensor) :=
  fields ← decode_csv row CSV_DEFAULTS;
  let features := dict (zip CSV_COLUMN_NAMES fields) in
  '(label, features) ← dict_pop features "fare_amount";
  mret (features, label).
End ParseRow.

(** ** The files a run acts on *)

(** The state a run acts on: the text files it can reach, each a list of
    lines under the name it is opened by, the working directory of the
    process, against which a relative name is read, and its logging
    threshold.  A directory is there when a file lies under it; the working
    directory and the directories above it are there as well.  The files are
    local ones, without symbolic links or permissions. *)
Record world := {
  files : gmap string (list string);
  cwd : string;
  verbosity : option Z;
}.

(** [s.split(c)] *)
Fixpoint split_on (c : ascii) (s : string) : list string :=
  match s with
  | EmptyString => [EmptyString]
  | String a s' =>
      if Ascii.eqb a c then EmptyString :: split_on c s'
      else
        match split_on c s' with
        | [] => [String a EmptyString]
        | field :: fields => String a field :: fields
        end
  end.

(** One step along a path, from the directory reached so far (its names
    innermost first): an empty name and [.] stay there, [..] goes to the
    parent, which asks for the directory to exist, and is the root itself at
    the root; any other name goes below. *)
Definition walk_step (is_dir : list string → bool) (reached : option (list string))
    (name : string) : option (list string) :=
  match reached with
  | None => None
  | Some dir =>
      if decide (name = "" ∨ name = ".") then Some dir
      else if decide (name = "..") then
        match dir with
        | [] => Some []
        | _ :: parent => if is_dir (reverse dir) then Some parent else None
        end
      else Some (name :: dir)
  end.

(** The place a path leads to from a directory, as the names from the root
    down; none when a directory it goes through is missing. *)
Definition walk (is_dir : list string → bool) (from : list string) (path : string)
  : option (list string) :=
  reverse <$> foldl (walk_step is_dir) (Some (reverse from)) (split_on "/" path).

Definition absolute (path : string) : bool := String.prefix "/" path.

Definition cwd_location (w : world) : list string :=
  default [] (walk (fun _ => true) [] (cwd w)).

(** Where a path starts from: the root, or the working directory. *)
Definition start (w : world) (path : string) : list string :=
  if absolute path then [] else cwd_location w.

(** The place of a file that is there, by the name it has in [files]. *)
Definition location (w : world) (name : string) : list string :=
  default [] (walk (fun _ => true) (start w name) name).

(** [place] lies below the directory [dir]. *)
Definition below (dir place : list string) : bool :=
  bool_decide (dir `prefix_of` place ∧ dir ≠ place).

Definition is_dir (w : world) (dir : list string) : bool :=
  bool_decide (dir `prefix_of` cwd_location w) ||
  existsb (fun name => below dir (location w name)) (map_to_list (files w)).*1.

Definition is_file (w : world) (place : list string) : bool :=
  existsb (fun name => bool_decide (location w name = place)) (map_to_list (files w)).*1.

(** The place a path names, as the system resolves it: the empty path
    names nothing, and a path through a missing directory neither. *)
Definition resolve (w : world) (path : string) : option (list string) :=
  if decide (path = "") then None
  else walk (is_dir w) (start w path) path.

(** ** model.py: reading the data *)

Definition example : Type := gmap string tensor * tensor.

(** A dataset whose elements are known is the list of them; an element of a
    mapped dataset is the value of the map function or the error it
    raises when the element is asked for.  Shuffling, endless repetition
    and batching stay symbolic. *)
Inductive Pipeline :=
  | Source (elements : list (result example))
  | Shuffle (buffer_size : Z) (d : Pipeline)
  | Repeat (count : option Z) (d : Pipeline)
  | Batch (batch_size : Z) (d : Pipeline).

(** What the data functions take from TensorFlow's file layer: which names a
    pattern matches, and the order in which [list_files], which shuffles by
    default, yields them. *)
Class FileOps := {
  glob_match : string → string → bool;
  shuffle_files : list string → list string;
}.

Section Datasets.
Context `{CsvKernel} `{FileOps}.

(** [tf.data.Dataset.list_files(file_pattern)]: the matching files, and an
    error when there is none, which the dataset raises when it is first
    read.  The pattern is a string or a list of strings; [None] and numbers
    are refused as a tensor of strings. *)
Definition list_files (file_pattern : pyval) (fs : gmap string (list string))
  : result (list string) :=
  match file_pattern with
  | PyStr pattern =>
      let matching := filter (fun f => glob_match pattern f = true) (map_to_list fs).*1 in
      if decide (matching = []) then Raise InvalidArgumentError
      else Ok (shuffle_files matching)
  | PyList patterns =>
      patterns ← mapR (fun p => match p with PyStr s => Ok s | _ => Raise TypeError end)
                      patterns;
      let matching :=
        concat (map (fun pattern =>
                       filter (fun f => glob_match pattern f = true) (map_to_list fs).*1)
                    patterns) in
      if decide (matching = []) then Raise InvalidArgumentError
      else Ok (shuffle_files matching)
  | PyNone => Raise ValueError
  | _ => Raise TypeError
  end.

(** [tf.data.TextLineDataset(filenames = filename)]: the lines of the
    file. *)
Definition TextLineDataset (filename : string) (fs : gmap string (list string))
  : list string :=
  default [] (fs !! filename).

Definition skip {A : Type} (count : Z) (d : list A) : list A :=
  drop (Z.to_nat count) d.

Definition flat_map {A B : Type} (f : A → list B) (d : list A) : list B :=
  concat (map f d).

Definition read_dataset (csv_path : pyval) (fs : gmap string (list string))
  : result (list (result example)) :=
  dataset ← list_files csv_path fs;
  let dataset := flat_map (fun filename => skip 1 (TextLineDataset filename fs)) dataset in
  let dataset := map parse_row dataset in
  mret dataset.

Definition train_input_fn (csv_path : pyval) (batch_size : Z)
    (fs : gmap string (list string)) : result Pipeline :=
  dataset ← read_dataset csv_path fs;
  let dataset := Batch batch_size (Repeat None (Shuffle 1000 (Source dataset))) in
  mret dataset.

Definition eval_input_fn (csv_path : pyval) (batch_size : Z)
    (fs : gmap string (list string)) : result Pipeline :=
  dataset ← read_dataset csv_path fs;
  let dataset := Batch batch_size (Source dataset) in
  mret dataset.
End Datasets.

(** ** model.py: the serving signature *)

Record Placeholder := {
  ph_dtype : DType;
  ph_shape : list (option Z);
}.

Record ServingInputReceiver := {
  sir_features : gmap string Placeholder;
  receiver_tensors : gmap string Placeholder;
}.

Definition placeholder (dt : DType) (shape : list (option Z)) : Placeholder :=
  {| ph_dtype := dt; ph_shape := shape |}.

Definition serving_input_receiver_fn (_ : unit) : ServingInputReceiver :=
  let receiver_tensors := dict [
    ("dayofweek", placeholder DT_INT32 [None]);
    ("hourofday", placeholder DT_INT32 [None]);
    ("pickuplon", placeholder DT_FLOAT [None]);
    ("pickuplat", placeholder DT_FLOAT [None]);
    ("dropofflat", placeholder DT_FLOAT [None]);
    ("dropofflon", placeholder DT_FLOAT [None])
  ] in
  let features := receiver_tensors in
  {| sir_features := features; receiver_tensors := receiver_tensors |}.

(** ** model.py: the model *)

(** Metric tensors hold reals: the labels of an evaluation have shape [n]
    and the predictions shape [n, 1]. *)
Definition metric_fn : Type :=
  list R → gmap string (list (list R)) → result (gmap string R).

(** [tf.squeeze(input, axis)] on a tensor of rank two: the axis named must
    have size one. *)
Definition squeeze (input : list (list R)) (axis : Z) : result (list R) :=
  if decide (axis = -1 ∨ axis = 1) then
    mapR (fun row => match row with [x] => Ok x | _ => Raise ValueError end) input
  else if decide (axis = -2 ∨ axis = 0) then
    match input with [row] => Ok row | _ => Raise ValueError end
  else Raise ValueError.

Definition squared_errors (labels predictions : list R) : list R :=
  zip_with (fun l p => ((p - l) * (p - l))%R) labels predictions.

Definition mean (xs : list R) : R :=
  (foldr Rplus 0 xs / INR (length xs))%R.

(** [tf.metrics.root_mean_squared_error] over the examples of an
    evaluation, taken all at once and in exact arithmetic; TensorFlow
    accumulates the metric batch after batch, in float32. *)
Definition root_mean_squared_error (labels predictions : list R) : result R :=
  if decide (length labels = length predictions) then
    Ok (sqrt (mean (squared_errors labels predictions)))
  else Raise ValueError.

Definition my_rmse : metric_fn := fun labels predictions =>
  p ← getitem predictions "predictions";
  pred_values ← squeeze p (-1);
  rmse ← root_mean_squared_error labels pred_values;
  mret (dict [("rmse", rmse)]).

Inductive FeatureColumn := numeric_column (key : string).

Record RunConfig := {
  tf_random_seed : Z;
  save_checkpoints_steps : pyval;
  model_dir : pyval;
}.

Record Estimator := {
  hidden_units : list Z;
  feature_columns : list FeatureColumn;
  config : RunConfig;
  metrics : list metric_fn;
}.

(** [tf.estimator.DNNRegressor(hidden_units, feature_columns, config)]:
    [config] is the configuration the estimator is given; one without a
    model directory makes it work in a temporary directory of its own. *)
Definition DNNRegressor (hidden_units : list Z) (feature_columns : list FeatureColumn)
    (config : RunConfig) : Estimator :=
  {| hidden_units := hidden_units; feature_columns := feature_columns;
     config := config; metrics := [] |}.

(** [tf.contrib.estimator.add_metrics(estimator, metric_fn)] *)
Definition add_metrics (estimator : Estimator) (fn : metric_fn) : Estimator :=
  {| hidden_units := hidden_units estimator;
     feature_columns := feature_columns estimator;
     config := config estimator;
     metrics := metrics estimator ++ [fn] |}.

(** [a // b] *)
Definition py_floordiv (a : pyval) (b : Z) : result pyval :=
  match a with
  | PyInt z =>
      if decide (b = 0) then Raise ZeroDivisionError else Ok (PyInt (z `div` b))
  | PyFloat q =>
      if decide (b = 0) then Raise ZeroDivisionError
      else Ok (PyFloat (inject_Z (Qfloor (q / inject_Z b))))
  | _ => Raise TypeError
  end.

(** [a < b] on numbers *)
Definition py_lt (a b : pyval) : result bool :=
  match a, b with
  | PyInt x, PyInt y => Ok (Z.ltb x y)
  | PyInt x, PyFloat y => Ok (negb (Qle_bool y (inject_Z x)))
  | PyFloat x, PyInt y => Ok (negb (Qle_bool (inject_Z y) x))
  | PyFloat x, PyFloat y => Ok (negb (Qle_bool y x))
  | _, _ => Raise TypeError
  end.

(** [max(a, b)]: the first of the two unless the second is larger. *)
Definition py_max (a b : pyval) : result pyval :=
  lt ← py_lt a b;
  mret (if lt : bool then b else a).

(** Python's truth value *)
Definition truthy (v : pyval) : bool :=
  match v with
  | PyNone => false
  | PyInt z => negb (Z.eqb z 0)
  | PyFloat q => negb (Qeq_bool q 0)
  | PyStr s => negb (String.eqb s "")
  | PyList l => match l with [] => false | _ => true end
  end.

(** ** The estimator interface *)

Record TrainSpec := {
  ts_input_fn : gmap string (list string) → result Pipeline;
  max_steps : pyval;
}.

(** [tf.estimator.TrainSpec(input_fn, max_steps)] refuses a [max_steps]
    that is not positive. *)
Definition new_TrainSpec (input_fn : gmap string (list string) → result Pipeline)
    (max_steps : pyval) : result TrainSpec :=
  let spec := {| ts_input_fn := input_fn; max_steps := max_steps |} in
  match max_steps with
  | PyNone => Ok spec
  | _ =>
      positive ← py_lt (PyInt 0) max_steps;
      if positive : bool then Ok spec else Raise ValueError
  end.

Record FinalExporter := {
  exporter_name : string;
  exp_serving_input_receiver_fn : unit → ServingInputReceiver;
}.

Record EvalSpec := {
  es_input_fn : gmap string (list string) → result Pipeline;
  steps : option Z;
  start_delay_secs : Z;
  throttle_secs : Z;
  exporters : FinalExporter;
}.

(** What a run takes from TensorFlow's runtime.  The model directory that
    the environment variable [TF_CONFIG] names, if it names one.  And the
    training loop itself: it takes the estimator and the two specs, acts on
    the files, and ends normally or with an error. *)
Class Trainer := {
  model_dir_in_tf_config : option string;
  estimator_train_and_evaluate :
    Estimator → TrainSpec → EvalSpec → world → world * result unit;
}.

(** ** model.py: building the model *)

Section Model.
Context `{Trainer}.

(** [tf.estimator.RunConfig(tf_random_seed, save_checkpoints_steps,
    model_dir)].  An empty [model_dir] is refused, here or in [TF_CONFIG],
    and so is one that differs from the one [TF_CONFIG] names; a [model_dir]
    that counts as false gives way to that of [TF_CONFIG].  The checkpoint
    interval must not be negative, which [max(10, _)] sees to. *)
Definition new_RunConfig (tf_random_seed : Z) (save_checkpoints_steps model_dir : pyval)
  : result RunConfig :=
  match model_dir with
  | PyStr EmptyString => Raise ValueError
  | _ =>
      match model_dir_in_tf_config with
      | Some EmptyString => Raise ValueError
      | Some dir =>
          if truthy model_dir
             && negb (match model_dir with PyStr s => String.eqb s dir | _ => false end)
          then Raise ValueError
          else Ok {| tf_random_seed := tf_random_seed;
                     save_checkpoints_steps := save_checkpoints_steps;
                     model_dir := if truthy model_dir then model_dir else PyStr dir |}
      | None =>
          Ok {| tf_random_seed := tf_random_seed;
                save_checkpoints_steps := save_checkpoints_steps;
                model_dir := if truthy model_dir then model_dir else PyNone |}
      end
  end.

Definition create_model (model_dir train_steps : pyval) : result Estimator :=
  steps ← py_floordiv train_steps 10;
  save_checkpoints_steps ← py_max (PyInt 10) steps;
  config ← new_RunConfig 1 save_checkpoints_steps model_dir;
  let feature_cols := map (fun k => numeric_column k) FEATURE_NAMES in
  let model := DNNRegressor [10; 10] feature_cols config in
  let model := add_metrics model my_rmse in
  mret model.
End Model.

(** ** model.py: the training run *)

(** Statements of a run: they change the world and may raise. *)
Definition M (A : Type) : Type := world → world * result A.

#[export] Instance M_ret : MRet M := fun A a w => (w, Ok a).
#[export] Instance M_bind : MBind M := fun A B f m w =>
  match m w with
  | (w', Ok a) => f a w'
  | (w', Raise e) => (w', Raise e)
  end.

(** A computation that only returns or raises. *)
Definition pure {A : Type} (r : result A) : M A := fun w => (w, r).

Definition INFO : Z := 20.

(** [tf.logging.set_verbosity(level)] *)
Definition set_verbosity (level : Z) : M unit := fun w =>
  ({| files := files w; cwd := cwd w; verbosity := Some level |}, Ok tt).

(** The file [name] lies inside the directory that [dir] names: [dir] may
    be written in any way the system resolves ([taxi_trained/],
    [./taxi_trained], an absolute path). *)
Definition inside (w : world) (dir name : string) : bool :=
  match resolve w dir with
  | Some place => below place (location w name)
  | None => false
  end.

(** The deletion [shutil.rmtree] attempts: the files left behind, and the
    error of the attempt.  A directory that is there is deleted with all it
    holds.  Where nothing lies inside the path there is no directory to
    delete: the path names a file, or nothing at all. *)
Definition rmtree_files (w : world) (path : string)
  : gmap string (list string) * option exn :=
  if decide (filter (fun kv => inside w path kv.1 = true) (files w) = ∅) then
    (files w,
     Some (if default false (is_file w <$> resolve w path) then NotADirectoryError
           else FileNotFoundError))
  else (filter (fun kv => inside w path kv.1 ≠ true) (files w), None).

(** [shutil.rmtree(path, ignore_errors)] *)
Definition rmtree (path : pyval) (ignore_errors : bool) : M unit := fun w =>
  let '(fs, error) :=
    match path with
    | PyStr p => rmtree_files w p
    | _ => (files w, Some TypeError)
    end in
  let w' := {| files := fs; cwd := cwd w; verbosity := verbosity w |} in
  match error with
  | Some e => if ignore_errors then (w', Ok tt) else (w', Raise e)
  | None => (w', Ok tt)
  end.

Section Training.
Context `{CsvKernel} `{FileOps} `{Trainer}.

Definition train_and_evaluate (params : gmap string pyval) : M unit :=
  OUTDIR ← pure (getitem params "output_dir");
  TRAIN_DATA_PATH ← pure (getitem params "train_data_path");
  EVAL_DATA_PATH ← pure (getitem params "eval_data_path");
  TRAIN_STEPS ← pure (getitem params "train_steps");
  model ← pure (create_model OUTDIR TRAIN_STEPS);
  train_spec ← pure (new_TrainSpec (train_input_fn TRAIN_DATA_PATH 128) TRAIN_STEPS);
  let exporter := {|
    exporter_name := "exporter";
    exp_serving_input_receiver_fn := serving_input_receiver_fn
  |} in
  let eval_spec := {|
    es_input_fn := eval_input_fn EVAL_DATA_PATH 128;
    steps := None;
    start_delay_secs := 1;
    throttle_secs := 1;
    exporters := exporter
  |} in
  set_verbosity INFO;;
  rmtree OUTDIR true;;
  estimator_train_and_evaluate model train_spec eval_spec.
End Training.

(** ** task.py: the command line *)

(** The argparse behaviour the script relies on, as in the standard
    library of Python 3: options are written [--name value] or
    [--name=value], a name may be shortened to an unambiguous prefix, [-h]
    and [--help] end the process, and so does every command line that
    argparse refuses, one that holds the separator [--] among them.  The help
    texts of the arguments play no part and are left out. *)
Inductive action_kind := store | help.

Inductive arg_type := type_str | type_int.

Record Action := {
  option_strings : list string;
  dest : string;
  kind : action_kind;
  type : arg_type;
  arg_default : option pyval;
  required : bool;
}.

Fixpoint lstrip (c : ascii) (s : string) : string :=
  match s with
  | String a s' => if Ascii.eqb a c then lstrip c s' else s
  | EmptyString => EmptyString
  end.

Fixpoint replace (a b : ascii) (s : string) : string :=
  match s with
  | String c s' => String (if Ascii.eqb c a then b else c) (replace a b s')
  | EmptyString => EmptyString
  end.

(** The attribute an option is stored under: [--job-dir] gives [job_dir]. *)
Definition dest_of (option_string : string) : string :=
  replace "-" "_" (lstrip "-" option_string).

(** [argparse.ArgumentParser()]: a parser that knows the help option only. *)
Definition ArgumentParser : list Action :=
  [{| option_strings := ["-h"; "--help"]; dest := "help"; kind := help;
      type := type_str; arg_default := None; required := false |}].

Definition add_argument (parser : list Action) (option_string : string)
    (type : arg_type) (default : pyval) (required : bool) : list Action :=
  parser ++ [{| option_strings := [option_string]; dest := dest_of option_string;
                kind := store; type := type; arg_default := Some default;
                required := required |}].

Definition option_string_actions (parser : list Action) : list (string * Action) :=
  concat (map (fun a => map (fun s => (s, a)) (option_strings a)) parser).

Definition find_action (parser : list Action) (option_string : string)
  : option Action :=
  snd <$> find (fun sa => String.eqb sa.1 option_string) (option_string_actions parser).

(** [s.split('=', 1)] *)
Definition split_eq (s : string) : string * option string :=
  match index 0 "=" s with
  | Some i => (substring 0 i s, Some (substring (S i) (String.length s - S i)%nat s))
  | None => (s, None)
  end.

(** The options a shortened option string may stand for. *)
Definition get_option_tuples (parser : list Action) (option_string : string)
  : list (Action * option string) :=
  if String.prefix "--" option_string then
    let '(option_prefix, explicit_arg) := split_eq option_string in
    omap (fun sa : string * Action =>
            if String.prefix option_prefix sa.1 then Some (sa.2, explicit_arg)
            else None)
         (option_string_actions parser)
  else
    let short_option_prefix := substring 0 2 option_string in
    let short_explicit_arg :=
      substring 2 (String.length option_string - 2)%nat option_string in
    omap (fun sa : string * Action =>
            if String.eqb sa.1 short_option_prefix
            then Some (sa.2, Some short_explicit_arg)
            else if String.prefix option_string sa.1 then Some (sa.2, None)
            else None)
         (option_string_actions parser).

(** What argparse takes from Python's text handling: [int(s)], and the
    pattern by which it tells a negative number such as [-5] or [-.5], which
    it takes for a value, from an option. *)
Class Text := {
  py_int : string → option Z;
  negative_number : string → bool;
}.

Definition has_space (s : string) : bool :=
  existsb (Ascii.eqb " ") (list_ascii_of_string s).

Inductive arg_class :=
  | Positional
  | Optional (action : Action) (explicit_arg : option string)
  | Unknown
  | Ambiguous.

Section Argparse.
Context `{Text}.

(** What one string of the command line is: a value, an option of the
    parser (with the value written after [=], if any), or an option the
    parser does not know or cannot tell apart. *)
Definition parse_optional (parser : list Action) (arg_string : string) : arg_class :=
  match arg_string with
  | EmptyString => Positional
  | String c _ =>
      if negb (Ascii.eqb c "-") then Positional
      else
        match find_action parser arg_string with
        | Some a => Optional a None
        | None =>
            if (String.length arg_string =? 1)%nat then Positional
            else
              let '(option_string, explicit_arg) := split_eq arg_string in
              match explicit_arg, find_action parser option_string with
              | Some _, Some a => Optional a explicit_arg
              | _, _ =>
                  match get_option_tuples parser arg_string with
                  | _ :: _ :: _ => Ambiguous
                  | [(a, explicit_arg)] => Optional a explicit_arg
                  | [] =>
                      if negative_number arg_string then Positional
                      else if has_space arg_string then Positional
                      else Unknown
                  end
              end
        end
  end.

(** The value of one string, at the type of the option; a string that the
    type refuses ends the process. *)
Definition get_value (type : arg_type) (arg_string : string) : result pyval :=
  match type with
  | type_str => Ok (PyStr arg_string)
  | type_int =>
      match py_int arg_string with
      | Some z => Ok (PyInt z)
      | None => Raise SystemExit
      end
  end.

(** [l.remove(x)]: without the first [x], if there is one. *)
Fixpoint remove_first (x : string) (l : list string) : list string :=
  match l with
  | [] => []
  | y :: l' => if String.eqb y x then l' else y :: remove_first x l'
  end.

(** The value stored for an option that takes one argument.  The first
    [--] among its strings is dropped; one string left is the value, and any
    other number of strings, none when the argument was written [=--], is
    stored as a list. *)
Definition get_values (a : Action) (arg_strings : list string) : result pyval :=
  match remove_first "--" arg_strings with
  | [arg_string] => get_value (type a) arg_string
  | arg_strings =>
      values ← mapR (get_value (type a)) arg_strings;
      mret (PyList values)
  end.

(** The namespace so far, and the destinations that were given. *)
Definition takes (a : Action) (v : pyval) (st : gmap string pyval * gset string)
  : gmap string pyval * gset string :=
  (<[dest a := v]> st.1, {[dest a]} ∪ st.2).

Fixpoint consume (parser : list Action) (arg_strings : list string)
    (st : gmap string pyval * gset string)
  : result (gmap string pyval * gset string) :=
  match arg_strings with
  | [] => Ok st
  | arg_string :: rest =>
      match parse_optional parser arg_string with
      | Optional a explicit_arg =>
          match kind a with
          | help => Raise SystemExit
          | store =>
              match explicit_arg with
              | Some s =>
                  v ← get_values a [s];
                  consume parser rest (takes a v st)
              | None =>
                  match rest with
                  | s :: rest' =>
                      match parse_optional parser s with
                      | Positional =>
                          v ← get_values a [s];
                          consume parser rest' (takes a v st)
                      | _ => Raise SystemExit
                      end
                  | [] => Raise SystemExit
                  end
              end
          end
      | _ => Raise SystemExit
      end
  end.

(** The namespace before the command line is read: every destination with
    its default. *)
Definition defaults (parser : list Action) : gmap string pyval :=
  dict (omap (fun a => (fun v => (dest a, v)) <$> arg_default a) parser).

(** [parser.parse_args().__dict__] for the command line [argv]. *)
Definition parse_args (parser : list Action) (argv : list string)
  : result (gmap string pyval) :=
  '(namespace, seen) ← consume parser argv (defaults parser, ∅);
  if forallb (fun a => implb (required a) (bool_decide (dest a ∈ seen))) parser
  then Ok namespace
  else Raise SystemExit.

(** The command line gives the option stored under [d]: one of its strings
    is that option, in full or shortened, with or without [=value]. *)
Definition given (parser : list Action) (argv : list string) (d : string) : bool :=
  existsb (fun arg_string =>
             match parse_optional parser arg_string with
             | Optional a _ => String.eqb (dest a) d
             | _ => false
             end) argv.
End Argparse.

Definition parser : list Action :=
  let parser := ArgumentParser in
  let parser := add_argument parser "--train_data_path" type_str PyNone true in
  let parser := add_argument parser "--train_steps" type_int (PyInt 1000) false in
  let parser := add_argument parser "--eval_data_path" type_str PyNone true in
  let parser := add_argument parser "--output_dir" type_str PyNone true in
  let parser := add_argument parser "--job-dir" type_str PyNone false in
  parser.

Section Task.
Context `{CsvKernel} `{FileOps} `{Trainer} `{Text}.

Definition main (argv : list string) : M unit :=
  args ← pure (parse_args parser argv);
  train_and_evaluate args.
End Task.

(** ** Rows that can be read *)

(** The text of a field can be read at a dtype. *)
Definition readable `{CsvKernel} (dt : DType) (field : string) : bool :=
  match dt with
  | DT_INT32 => bool_decide (is_Some (safe_strto32 field))
  | DT_FLOAT => bool_decide (is_Some (safe_strtof field))
  | DT_STRING => true
  end.

(** ** An instance to run the model on

    A plain reading of CSV text (fields cut at commas, decimal numbers),
    decimal text for [int()], file patterns that name one file, no model
    directory in [TF_CONFIG], and a training loop that leaves a checkpoint in
    the model directory. *)
Module Plain.

Definition is_digit (c : ascii) : bool := bool_decide (is_Some (Ascii.is_nat c)).

Definition all_digits (s : string) : bool := forallb is_digit (list_ascii_of_string s).

Fixpoint digits_value (s : string) (acc : Z) : option Z :=
  match s with
  | EmptyString => Some acc
  | String c s' =>
      match Ascii.is_nat c with
      | Some d => digits_value s' (10 * acc + Z.of_nat d)
      | None => None
      end
  end.

Fixpoint lstrip_space (s : string) : string :=
  match s with
  | String a s' => if Ascii.is_space a then lstrip_space s' else s
  | EmptyString => EmptyString
  end.

Definition strip (s : string) : string :=
  String.rev (lstrip_space (String.rev (lstrip_space s))).

(** Decimal text, with a sign and blanks around it. *)
Definition decimal (s : string) : option Z :=
  match strip s with
  | EmptyString => None
  | String "-" (String _ _ as r) => Z.opp <$> digits_value r 0
  | String "+" (String _ _ as r) => digits_value r 0
  | r => digits_value r 0
  end.

(** [-5] or [-.5], in decimal digits. *)
Definition negative (s : string) : bool :=
  match s with
  | String "-" r =>
      match index 0 "." r with
      | None => negb (String.eqb r "") && all_digits r
      | Some i =>
          let frac := substring (S i) (String.length r - S i)%nat r in
          all_digits (substring 0 i r) && negb (String.eqb frac "") && all_digits frac
      end
  | _ => false
  end.

Definition text : Text := {|
  py_int := decimal;
  negative_number := negative;
|}.

Definition strto32 (s : string) : option Z :=
  match decimal s with
  | Some z => if decide ((-2147483648 ≤ z ≤ 2147483647)%Z) then Some z else None
  | None => None
  end.

Definition strtof (s : string) : option Q :=
  let '(negative, digits) :=
    match s with
    | String "-" r => (true, r)
    | _ => (false, s)
    end in
  let '(whole, frac) :=
    match index 0 "." digits with
    | Some i =>
        (substring 0 i digits,
         substring (S i) (String.length digits - S i)%nat digits)
    | None => (digits, EmptyString)
    end in
  if String.eqb (whole ++ frac) "" then None
  else
    match digits_value (whole ++ frac) 0 with
    | Some n =>
        let q := Qmake n (Z.to_pos (10 ^ Z.of_nat (String.length frac))) in
        Some (if negative : bool then Qopp q else q)
    | None => None
    end.

Definition csv : CsvKernel := {|
  ExtractFields := fun s =>
    Ok (match s with EmptyString => [] | _ => split_on "," s end);
  safe_strto32 := strto32;
  safe_strtof := strtof;
|}.

Definition file_ops : FileOps := {|
  glob_match := String.eqb;
  shuffle_files := fun names => names;
|}.

Definition checkpoint_of (model_dir : pyval) : string :=
  match model_dir with
  | PyStr dir => dir ++ "/checkpoint"
  | _ => "checkpoint"
  end.

Definition trainer : Trainer := {|
  model_dir_in_tf_config := None;
  estimator_train_and_evaluate := fun model _ _ w =>
    ({| files := <[checkpoint_of (model_dir (config model)) := ["model.ckpt"]]> (files w);
        cwd := cwd w;
        verbosity := verbosity w |}, Ok tt);
|}.

(** A training loop that fails at once. *)
Definition failing_trainer : Trainer := {|
  model_dir_in_tf_config := None;
  estimator_train_and_evaluate := fun _ _ _ w => (w, Raise (OpError "training failed"));
|}.

(** The parameters of the notebook's local run. *)
Definition local_params : gmap string pyval :=
  dict [("train_data_path", PyStr "taxi-train.csv");
        ("eval_data_path", PyStr "taxi-valid.csv");
        ("train_steps", PyInt 1);
        ("output_dir", PyStr "taxi_trained");
        ("job_dir", PyNone)].

Definition local_argv : list string :=
  ["--train_data_path=taxi-train.csv"; "--eval_data_path=taxi-valid.csv";
   "--train_steps=1"; "--output_dir=taxi_trained"].

Definition csv_files : gmap string (list string) :=
  dict [("taxi-train.csv", ["fare_amount,dayofweek"; "12.5,2,17,-73.9,40.7,-73.9,40.8"]);
        ("taxi-valid.csv", ["fare_amount,dayofweek"; "7.0,,,,,,"])].

(** The data alone, before any run. *)
Definition first_run : world := {|
  files := csv_files;
  cwd := "/home/jupyter/02_tensorflow";
  verbosity := None
|}.

(** The data and what an earlier run left in the output directory. *)
Definition second_run : world := {|
  files := <["taxi_trained/checkpoint" := ["model.ckpt-1"]]>
             (<["taxi_trained/export/exporter/1/saved_model.pb" := []]> csv_files);
  cwd := "/home/jupyter/02_tensorflow";
  verbosity := None
|}.

End Plain.

(** * Properties *)

(** ** The error monad *)

Lemma bind_Ok {A B : Type} (r : result A) (f : A → result B) (b : B) :
  r ≫= f = Ok b → ∃ a, r = Ok a ∧ f a = Ok b.
Proof. destruct r as [a|e]; simpl; [eauto | discriminate]. Qed.

Lemma mapR_cons_Ok {A B : Type} (f : A → result B) (a : A) (l : list A) (bs : list B) :
  mapR f (a :: l) = Ok bs →
  ∃ b bs', f a = Ok b ∧ mapR f l = Ok bs' ∧ bs = b :: bs'.
Proof.
  simpl. intros Hb.
  apply bind_Ok in Hb as (b & Hfa & Hb).
  apply bind_Ok in Hb as (bs' & Hl & Hb).
  injection Hb as <-. eauto.
Qed.

Lemma mapR_length {A B : Type} (f : A → result B) (l : list A) (bs : list B) :
  mapR f l = Ok bs → length bs = length l.
Proof.
  revert bs. induction l as [|a l IH]; intros bs Hm.
  - injection Hm as <-. done.
  - apply mapR_cons_Ok in Hm as (b & bs' & _ & Hl & ->).
    simpl. f_equal. by apply IH.
Qed.

(** ** Parsing a row *)

Section ParseRowFacts.
Context `{CsvKernel}.

(** The defaults of the schema as [decode_csv] uses them. *)
Lemma convert_CSV_DEFAULTS :
  mapR convert_default CSV_DEFAULTS =
  Ok [(DT_FLOAT, Some (TFloat32 0.0)); (DT_INT32, Some (TInt32 1));
      (DT_INT32, Some (TInt32 0)); (DT_FLOAT, Some (TFloat32 (-74.0)));
      (DT_FLOAT, Some (TFloat32 40.0)); (DT_FLOAT, Some (TFloat32 (-74.0)));
      (DT_FLOAT, Some (TFloat32 40.7))].
Proof. reflexivity. Qed.

(** A record decodes only when it has seven fields, and then field by
    field. *)
Lemma decode_csv_Ok (row : string) (fields : list tensor) :
  decode_csv row CSV_DEFAULTS = Ok fields →
  ∃ k0 k1 k2 k3 k4 k5 k6 f0 f1 f2 f3 f4 f5 f6,
    ExtractFields row = Ok [k0; k1; k2; k3; k4; k5; k6] ∧
    fields = [f0; f1; f2; f3; f4; f5; f6] ∧
    decode_field (k0, (DT_FLOAT, Some (TFloat32 0.0))) = Ok f0 ∧
    decode_field (k1, (DT_INT32, Some (TInt32 1))) = Ok f1 ∧
    decode_field (k2, (DT_INT32, Some (TInt32 0))) = Ok f2 ∧
    decode_field (k3, (DT_FLOAT, Some (TFloat32 (-74.0)))) = Ok f3 ∧
    decode_field (k4, (DT_FLOAT, Some (TFloat32 40.0))) = Ok f4 ∧
    decode_field (k5, (DT_FLOAT, Some (TFloat32 (-74.0)))) = Ok f5 ∧
    decode_field (k6, (DT_FLOAT, Some (TFloat32 40.7))) = Ok f6.
Proof.
  unfold decode_csv. rewrite convert_CSV_DEFAULTS. intros Hd.
  apply bind_Ok in Hd as (defaults & Hdef & Hd).
  injection Hdef as <-.
  apply bind_Ok in Hd as (tokens & Htok & Hd).
  case_decide as Hlen; [|discriminate].
  destruct tokens as [|k0 [|k1 [|k2 [|k3 [|k4 [|k5 [|k6 [|]]]]]]]]; try discriminate.
  cbn [zip zip_with] in Hd.
  repeat (apply mapR_cons_Ok in Hd as (? & ? & ? & Hd & ->)).
  injection Hd as <-.
  do 14 eexists. repeat split; eauto.
Qed.

Lemma decode_field_dtype (field : string) (dt : DType) (d f : tensor) :
  dtype d = dt → decode_field (field, (dt, Some d)) = Ok f → dtype f = dt.
Proof.
  unfold decode_field. intros Hd. case_decide.
  - intros [= <-]. done.
  - destruct dt.
    + destruct (safe_strto32 field); [|discriminate]. by intros [= <-].
    + destruct (safe_strtof field); [|discriminate]. by intros [= <-].
    + by intros [= <-].
Qed.

Lemma decode_field_empty (dt : DType) (d f : tensor) :
  decode_field ("", (dt, Some d)) = Ok f → f = d.
Proof. unfold decode_field. rewrite decide_True by done. congruence. Qed.

(** What [parse_row] makes of seven decoded fields. *)
Lemma parse_row_Ok (row : string) (f0 f1 f2 f3 f4 f5 f6 : tensor) :
  decode_csv row CSV_DEFAULTS = Ok [f0; f1; f2; f3; f4; f5; f6] →
  parse_row row =
  Ok (dict [("dayofweek", f1); ("hourofday", f2); ("pickuplon", f3);
            ("pickuplat", f4); ("dropofflon", f5); ("dropofflat", f6)], f0).
Proof.
  intros Hd. unfold parse_row. rewrite Hd. reflexivity.
Qed.

Lemma parse_row_Raise (row : string) (e : exn) :
  decode_csv row CSV_DEFAULTS = Raise e → parse_row row = Raise e.
Proof. intros Hd. unfold parse_row. by rewrite Hd. Qed.

End ParseRowFacts.

(** C1. For every CSV row that [tf.decode_csv] accepts under the schema,
    [parse_row] returns a pair (features, label) in which label is the parsed
    [fare_amount] field (the first one) and features is a dictionary whose
    keys are exactly the six remaining columns, each mapped to the parsed
    field of its position; [fare_amount] is not a key of features.  A row the
    decoder refuses makes [parse_row] raise the decoder's error. *)
Theorem parse_row_features_label `{CsvKernel} (row : string) :
  match decode_csv row CSV_DEFAULTS with
  | Ok fields =>
      ∃ features label,
        parse_row row = Ok (features, label) ∧
        fields !! 0%nat = Some label ∧
        dom features =
          ({["dayofweek"; "hourofday"; "pickuplon"; "pickuplat";
             "dropofflon"; "dropofflat"]} : gset string) ∧
        (∀ (i : nat) (column : string),
            CSV_COLUMN_NAMES !! i = Some column → column ≠ "fare_amount" →
            ∃ field, fields !! i = Some field ∧ features !! column = Some field) ∧
        "fare_amount" ∉ dom features
  | Raise e => parse_row row = Raise e
  end.
Proof.
  destruct (decode_csv row CSV_DEFAULTS) as [fields|e] eqn:Hd;
    [|by apply parse_row_Raise].
  destruct (decode_csv_Ok _ _ Hd)
    as (k0 & k1 & k2 & k3 & k4 & k5 & k6 & f0 & f1 & f2 & f3 & f4 & f5 & f6
        & _ & -> & _).
  eexists _, f0. split; [by apply parse_row_Ok|].
  split; [done|]. split; [reflexivity|]. split.
  - intros i column Hi Hne.
    do 7 (destruct i as [|i]; [injection Hi as <-; first [done | by eexists]|]).
    discriminate.
  - by vm_compute.
Qed.

(** A full row of the training data. *)
Lemma parse_row_features_label_witness :
  ∃ features label,
    @parse_row Plain.csv "12.5,2,17,-73.9,40.7,-73.9,40.8" = Ok (features, label) ∧
    label = TFloat32 12.5 ∧
    features !! "hourofday" = Some (TInt32 17) ∧
    "fare_amount" ∉ dom features.
Proof.
  pose proof (@parse_row_features_label Plain.csv "12.5,2,17,-73.9,40.7,-73.9,40.8")
    as Hrow.
  assert (@decode_csv Plain.csv "12.5,2,17,-73.9,40.7,-73.9,40.8" CSV_DEFAULTS =
          Ok [TFloat32 12.5; TInt32 2; TInt32 17; TFloat32 (-73.9); TFloat32 40.7;
              TFloat32 (-73.9); TFloat32 40.8]) as Hd by reflexivity.
  rewrite Hd in Hrow.
  destruct Hrow as (features & label & Hparse & Hlabel & _ & Hcolumns & Hkey).
  exists features, label. split; [exact Hparse|].
  split; [by injection Hlabel as <-|]. split; [|exact Hkey].
  destruct (Hcolumns 2%nat "hourofday" eq_refl) as (field & Hfield & ->); [done|].
  symmetry. exact Hfield.
Defined.

(** C2. The schema is the seven columns [fare_amount], [dayofweek],
    [hourofday], [pickuplon], [pickuplat], [dropofflon], [dropofflat] in that
    order: a row that parses has exactly seven fields, each empty field is
    replaced by the default of its column (0.0, 1, 0, -74.0, 40.0, -74.0 and
    40.7), and every column has the type of its default: float for
    [fare_amount] and the four coordinates, integer for [dayofweek] and
    [hourofday]. *)
Theorem csv_defaults_substituted `{CsvKernel} (row : string) (tokens : list string)
    (features : gmap string tensor) (label : tensor) :
  ExtractFields row = Ok tokens →
  parse_row row = Ok (features, label) →
  CSV_COLUMN_NAMES =
    ["fare_amount"; "dayofweek"; "hourofday"; "pickuplon"; "pickuplat";
     "dropofflon"; "dropofflat"] ∧
  length tokens = 7%nat ∧
  (tokens !! 0%nat = Some "" → label = TFloat32 0.0) ∧
  (tokens !! 1%nat = Some "" → features !! "dayofweek" = Some (TInt32 1)) ∧
  (tokens !! 2%nat = Some "" → features !! "hourofday" = Some (TInt32 0)) ∧
  (tokens !! 3%nat = Some "" → features !! "pickuplon" = Some (TFloat32 (-74.0))) ∧
  (tokens !! 4%nat = Some "" → features !! "pickuplat" = Some (TFloat32 40.0)) ∧
  (tokens !! 5%nat = Some "" → features !! "dropofflon" = Some (TFloat32 (-74.0))) ∧
  (tokens !! 6%nat = Some "" → features !! "dropofflat" = Some (TFloat32 40.7)) ∧
  dtype label = DT_FLOAT ∧
  dtype <$> features !! "dayofweek" = Some DT_INT32 ∧
  dtype <$> features !! "hourofday" = Some DT_INT32 ∧
  dtype <$> features !! "pickuplon" = Some DT_FLOAT ∧
  dtype <$> features !! "pickuplat" = Some DT_FLOAT ∧
  dtype <$> features !! "dropofflon" = Some DT_FLOAT ∧
  dtype <$> features !! "dropofflat" = Some DT_FLOAT.
Proof.
  intros Htok Hrow.
  destruct (decode_csv row CSV_DEFAULTS) as [fields|e] eqn:Hd;
    [|rewrite (parse_row_Raise _ _ Hd) in Hrow; discriminate].
  destruct (decode_csv_Ok _ _ Hd)
    as (k0 & k1 & k2 & k3 & k4 & k5 & k6 & f0 & f1 & f2 & f3 & f4 & f5 & f6
        & Htok' & -> & H0 & H1 & H2 & H3 & H4 & H5 & H6).
  rewrite Htok in Htok'. injection Htok' as ->.
  rewrite (parse_row_Ok _ _ _ _ _ _ _ _ Hd) in Hrow.
  injection Hrow as <- <-.
  split; [reflexivity|]. split; [reflexivity|].
  repeat split;
    try (intros [= ->]; cbn;
         first [ by apply decode_field_empty in H0
               | by rewrite (decode_field_empty _ _ _ H1)
               | by rewrite (decode_field_empty _ _ _ H2)
               | by rewrite (decode_field_empty _ _ _ H3)
               | by rewrite (decode_field_empty _ _ _ H4)
               | by rewrite (decode_field_empty _ _ _ H5)
               | by rewrite (decode_field_empty _ _ _ H6) ]).
  1: by rewrite (decode_field_dtype _ DT_FLOAT (TFloat32 0.0) f0 eq_refl H0).
  all:
      match goal with
      | Hf : decode_field (_, (?dt, Some ?d)) = Ok ?f |- dtype <$> ?m !! ?k = _ =>
          change (m !! k) with (Some f); cbn;
          by rewrite (decode_field_dtype _ dt d f eq_refl Hf)
      end.
Qed.

(** A row whose only filled field is [hourofday]: the others take their
    defaults. *)
Lemma csv_defaults_substituted_witness :
  @ExtractFields Plain.csv ",,17,,,," = Ok [""; ""; "17"; ""; ""; ""; ""] ∧
  @parse_row Plain.csv ",,17,,,," =
    Ok (dict [("dayofweek", TInt32 1); ("hourofday", TInt32 17);
              ("pickuplon", TFloat32 (-74.0)); ("pickuplat", TFloat32 40.0);
              ("dropofflon", TFloat32 (-74.0)); ("dropofflat", TFloat32 40.7)],
        TFloat32 0.0) ∧
  dict [("dayofweek", TInt32 1); ("hourofday", TInt32 17);
        ("pickuplon", TFloat32 (-74.0)); ("pickuplat", TFloat32 40.0);
        ("dropofflon", TFloat32 (-74.0)); ("dropofflat", TFloat32 40.7)]
    !! "dropofflat" = Some (TFloat32 40.7).
Proof.
  split; [reflexivity|]. split; [reflexivity|].
  eapply (@csv_defaults_substituted Plain.csv ",,17,,,,"
            [""; ""; "17"; ""; ""; ""; ""] _ (TFloat32 0.0));
    reflexivity.
Defined.

(** ** The declarations of the module *)

(** C6. Column order and types match across the declarations:
    [CSV_DEFAULTS] holds one default for each of the seven names of
    [CSV_COLUMN_NAMES], [FEATURE_NAMES] is [CSV_COLUMN_NAMES] without its
    first element, the label [fare_amount], and the serving input receiver
    declares for every feature the dtype of that column's default: int32 for
    [dayofweek] and [hourofday], float32 for the four coordinates. *)
Theorem column_order_type_matching :
  (length CSV_COLUMN_NAMES = 7)%nat ∧
  (length CSV_DEFAULTS = 7)%nat ∧
  Forall (fun d => length d = 1%nat) CSV_DEFAULTS ∧
  CSV_COLUMN_NAMES = "fare_amount" :: FEATURE_NAMES ∧
  ("fare_amount" ∉ FEATURE_NAMES) ∧
  dom (receiver_tensors (serving_input_receiver_fn ())) =
    (list_to_set FEATURE_NAMES : gset string) ∧
  (∀ (i : nat) (column : string) (d : list pyval),
      CSV_COLUMN_NAMES !! i = Some column → CSV_DEFAULTS !! i = Some d →
      column ≠ "fare_amount" →
      ∃ default ph,
        convert_default d = Ok (ph_dtype ph, Some default) ∧
        dtype default = ph_dtype ph ∧
        receiver_tensors (serving_input_receiver_fn ()) !! column = Some ph) ∧
  ph_dtype <$> (receiver_tensors (serving_input_receiver_fn ()) !! "dayofweek")
    = Some DT_INT32 ∧
  ph_dtype <$> (receiver_tensors (serving_input_receiver_fn ()) !! "hourofday")
    = Some DT_INT32 ∧
  ph_dtype <$> (receiver_tensors (serving_input_receiver_fn ()) !! "pickuplon")
    = Some DT_FLOAT ∧
  ph_dtype <$> (receiver_tensors (serving_input_receiver_fn ()) !! "pickuplat")
    = Some DT_FLOAT ∧
  ph_dtype <$> (receiver_tensors (serving_input_receiver_fn ()) !! "dropofflon")
    = Some DT_FLOAT ∧
  ph_dtype <$> (receiver_tensors (serving_input_receiver_fn ()) !! "dropofflat")
    = Some DT_FLOAT.
Proof.
  split; [reflexivity|]. split; [reflexivity|].
  split; [by repeat constructor|]. split; [reflexivity|].
  split; [apply (bool_decide_unpack _); by vm_compute|]. split; [reflexivity|].
  split; [|by repeat split].
  intros i column d Hi Hd Hne.
  destruct i as [|i]; [by injection Hi as <-|].
  do 6 (destruct i as [|i];
        [injection Hi as <-; injection Hd as <-; by eexists _, (placeholder _ _)|]).
  discriminate.
Qed.

(** ** The model *)

Lemma py_max_10 (n : Z) : py_max (PyInt 10) (PyInt n) = Ok (PyInt (Z.max 10 n)).
Proof.
  unfold py_max. simpl. destruct (Z.ltb_spec 10 n); do 2 f_equal; lia.
Qed.

Section ModelFacts.
Context `{Trainer}.

(** A model is what [DNNRegressor] and [add_metrics] make of a run
    configuration that [RunConfig] accepted. *)
Lemma create_model_Ok (model_dir train_steps : pyval) (model : Estimator) :
  create_model model_dir train_steps = Ok model →
  ∃ steps save_checkpoints_steps config,
    py_floordiv train_steps 10 = Ok steps ∧
    py_max (PyInt 10) steps = Ok save_checkpoints_steps ∧
    new_RunConfig 1 save_checkpoints_steps model_dir = Ok config ∧
    model =
      add_metrics
        (DNNRegressor [10; 10] (map (fun k => numeric_column k) FEATURE_NAMES) config)
        my_rmse.
Proof.
  unfold create_model. intros Hmodel.
  apply bind_Ok in Hmodel as (steps & Hsteps & Hmodel).
  apply bind_Ok in Hmodel as (save_checkpoints_steps & Hmax & Hmodel).
  apply bind_Ok in Hmodel as (config & Hconfig & Hmodel).
  injection Hmodel as <-. by exists steps, save_checkpoints_steps, config.
Qed.

(** The run configuration keeps the seed and the checkpoint interval it is
    given. *)
Lemma new_RunConfig_Ok (seed : Z) (interval model_dir : pyval) (config : RunConfig) :
  new_RunConfig seed interval model_dir = Ok config →
  tf_random_seed config = seed ∧ save_checkpoints_steps config = interval ∧
  model_dir ≠ PyStr "".
Proof.
  unfold new_RunConfig. intros Hconfig.
  assert (model_dir ≠ PyStr "") as Hne by (intros ->; discriminate).
  destruct model_dir as [|z|q|[|c s]|l]; try discriminate;
    (destruct model_dir_in_tf_config as [[|c' dir]|]; [discriminate| |];
     [match type of Hconfig with (if ?b then _ else _) = _ => destruct b end;
      [discriminate|]|]; by injection Hconfig as <-).
Qed.

(** A model directory that is not empty, and that [TF_CONFIG] does not
    contradict, is taken as it is. *)
Lemma new_RunConfig_str (seed : Z) (interval : pyval) (dir : string) :
  dir ≠ "" →
  model_dir_in_tf_config = None ∨ model_dir_in_tf_config = Some dir →
  new_RunConfig seed interval (PyStr dir) =
  Ok {| tf_random_seed := seed; save_checkpoints_steps := interval;
        model_dir := PyStr dir |}.
Proof.
  intros Hdir Hconfig. unfold new_RunConfig.
  destruct dir as [|c dir]; [done|].
  destruct Hconfig as [->| ->]; [reflexivity|].
  cbn [truthy]. rewrite String.eqb_refl. reflexivity.
Qed.

(** The run configuration refuses in one way. *)
Lemma new_RunConfig_Raise (seed : Z) (interval model_dir : pyval) (e : exn) :
  new_RunConfig seed interval model_dir = Raise e → e = ValueError.
Proof.
  unfold new_RunConfig. intros Hconfig.
  destruct model_dir as [|z|q|[|c s]|l];
    try (by injection Hconfig);
    (destruct model_dir_in_tf_config as [[|c' dir]|];
     [by injection Hconfig| |discriminate];
     match type of Hconfig with (if ?b then _ else _) = _ => destruct b end;
     [by injection Hconfig|discriminate]).
Qed.

Lemma create_model_int (dir : string) (train_steps : Z) :
  dir ≠ "" →
  model_dir_in_tf_config = None ∨ model_dir_in_tf_config = Some dir →
  create_model (PyStr dir) (PyInt train_steps) =
  Ok (add_metrics
        (DNNRegressor [10; 10] (map (fun k => numeric_column k) FEATURE_NAMES)
           {| tf_random_seed := 1;
              save_checkpoints_steps := PyInt (Z.max 10 (train_steps `div` 10));
              model_dir := PyStr dir |})
        my_rmse).
Proof.
  intros Hdir Hconfig. unfold create_model. cbn [py_floordiv].
  rewrite decide_False by done.
  cbn [mbind result_bind]. rewrite py_max_10. cbn [mbind result_bind].
  by rewrite new_RunConfig_str.
Qed.

(** The configuration of a model built for an integer number of steps. *)
Lemma create_model_config (model_dir : pyval) (train_steps : Z) (model : Estimator) :
  create_model model_dir (PyInt train_steps) = Ok model →
  save_checkpoints_steps (config model) = PyInt (Z.max 10 (train_steps `div` 10)) ∧
  tf_random_seed (config model) = 1.
Proof.
  intros (steps & interval & config & Hsteps & Hmax & Hconfig & ->)%create_model_Ok.
  cbn [py_floordiv] in Hsteps. rewrite decide_False in Hsteps by done.
  injection Hsteps as <-. rewrite py_max_10 in Hmax. injection Hmax as <-.
  apply new_RunConfig_Ok in Hconfig as (Hseed & Hinterval & _).
  by split.
Qed.

(** An empty model directory is refused, after the number of steps has been
    divided. *)
Lemma create_model_empty (train_steps : Z) :
  create_model (PyStr "") (PyInt train_steps) = Raise ValueError.
Proof.
  unfold create_model. cbn [py_floordiv]. rewrite decide_False by done.
  cbn [mbind result_bind]. by rewrite py_max_10.
Qed.

End ModelFacts.

(** C10. For every integer [train_steps], the checkpoint interval of the
    configuration of every model that [create_model] returns is
    [max(10, train_steps // 10)]: it is never below 10, it equals
    [train_steps // 10] exactly when [train_steps >= 100], and the random
    seed of the configuration is 1.  [create_model] returns a model for every
    model directory that is a non-empty string, unless [TF_CONFIG] names
    another one; for the empty string it raises [ValueError]. *)
Theorem save_checkpoints_interval `{Trainer} (train_steps : Z) :
  (∀ model_dir model,
      create_model model_dir (PyInt train_steps) = Ok model →
      save_checkpoints_steps (config model) =
        PyInt (Z.max 10 (train_steps `div` 10)) ∧
      tf_random_seed (config model) = 1) ∧
  (10 ≤ Z.max 10 (train_steps `div` 10))%Z ∧
  (Z.max 10 (train_steps `div` 10) = train_steps `div` 10 ↔ (100 ≤ train_steps)%Z) ∧
  (∀ dir, dir ≠ "" →
          model_dir_in_tf_config = None ∨ model_dir_in_tf_config = Some dir →
          ∃ model, create_model (PyStr dir) (PyInt train_steps) = Ok model) ∧
  create_model (PyStr "") (PyInt train_steps) = Raise ValueError.
Proof.
  split; [|split; [lia|split; [|split]]].
  - intros model_dir model. apply create_model_config.
  - pose proof (Z.div_mod train_steps 10 ltac:(lia)) as Hdiv.
    pose proof (Z.mod_pos_bound train_steps 10 ltac:(lia)) as Hmod.
    lia.
  - intros dir Hdir Hconfig. eexists. by apply create_model_int.
  - apply create_model_empty.
Qed.

(** A thousand steps: a checkpoint every hundred. *)
Lemma save_checkpoints_interval_witness :
  ∃ model,
    @create_model Plain.trainer (PyStr "taxi_trained") (PyInt 1000) = Ok model ∧
    save_checkpoints_steps (config model) = PyInt 100 ∧
    tf_random_seed (config model) = 1.
Proof.
  destruct (@save_checkpoints_interval Plain.trainer 1000)
    as (Hinterval & _ & _ & Hmodel & _).
  destruct (Hmodel "taxi_trained" ltac:(discriminate) (or_introl eq_refl))
    as (model & Hcreate).
  exists model. split; [exact Hcreate|].
  exact (Hinterval _ _ Hcreate).
Defined.

Lemma squeeze_columns (ps : list R) :
  squeeze ((fun p => [p]) <$> ps) (-1) = Ok ps.
Proof.
  unfold squeeze. rewrite decide_True by (by left).
  induction ps as [|p ps IH]; [done|].
  cbn. cbn in IH. by rewrite IH.
Qed.

(** What [my_rmse] reports for predictions of shape [n, 1]: the metric
    that [root_mean_squared_error] computes from the labels and the
    predictions as a vector, under the key [rmse]. *)
Lemma my_rmse_columns (labels ps : list R) (predictions : gmap string (list (list R))) :
  predictions !! "predictions" = Some ((fun p => [p]) <$> ps) →
  my_rmse labels predictions =
  (rmse ← root_mean_squared_error labels ps; mret (dict [("rmse", rmse)])).
Proof.
  intros Hp. unfold my_rmse, getitem. rewrite Hp.
  cbn [mbind result_bind]. rewrite squeeze_columns. reflexivity.
Qed.

(** For the empty model directory, which the command line can give with
    [--output_dir=], [create_model] returns no model: the run configuration
    refuses it. *)
Lemma create_model_refuses_empty_model_dir :
  @create_model Plain.trainer (PyStr "") (PyInt 1000) = Raise ValueError.
Proof. reflexivity. Qed.

(** C5, amended. For every model directory that is a non-empty string,
    unless [TF_CONFIG] names another one, and every integer number of
    training steps, [create_model] builds a regressor with exactly two hidden
    layers of 10 units, over one numeric feature column for each of the six
    columns other than the label, and adds to it a single metric: what
    [tf.metrics.root_mean_squared_error] computes from the labels and the
    predictions squeezed on their last axis, reported under the name
    [rmse]. *)
Theorem create_model_regressor `{Trainer} (model_dir : string) (train_steps : Z) :
  model_dir ≠ "" →
  model_dir_in_tf_config = None ∨ model_dir_in_tf_config = Some model_dir →
  ∃ model,
    create_model (PyStr model_dir) (PyInt train_steps) = Ok model ∧
    hidden_units model = [10; 10] ∧
    feature_columns model =
      [numeric_column "dayofweek"; numeric_column "hourofday";
       numeric_column "pickuplon"; numeric_column "pickuplat";
       numeric_column "dropofflon"; numeric_column "dropofflat"] ∧
    (numeric_column "fare_amount" ∉ feature_columns model) ∧
    ∃ metric,
      metrics model = [metric] ∧
      (∀ (labels ps : list R) (predictions : gmap string (list (list R))),
          predictions !! "predictions" = Some ((fun p => [p]) <$> ps) →
          metric labels predictions =
          (rmse ← root_mean_squared_error labels ps; mret (dict [("rmse", rmse)]))) ∧
      (∀ labels predictions m,
          metric labels predictions = Ok m → dom m = ({["rmse"]} : gset string)).
Proof.
  intros Hdir Hconfig.
  eexists. split; [by apply create_model_int|].
  split; [reflexivity|]. split; [reflexivity|]. split.
  { cbn. intros Hin.
    repeat (apply elem_of_cons in Hin as [Hin|Hin]; [discriminate|]).
    by apply elem_of_nil in Hin. }
  exists my_rmse. split; [reflexivity|]. split; [apply my_rmse_columns|].
  intros labels predictions m. unfold my_rmse.
  intros (p & _ & Hm)%bind_Ok. apply bind_Ok in Hm as (pv & _ & Hm).
  apply bind_Ok in Hm as (rmse & _ & Hm). injection Hm as <-.
  unfold dict. cbn [foldl fst snd].
  by rewrite dom_insert_L, dom_empty_L, union_empty_r_L.
Qed.

(** The model of the local run, and its metric on two examples. *)
Lemma create_model_regressor_witness :
  ∃ model metric,
    @create_model Plain.trainer (PyStr "taxi_trained") (PyInt 1000) = Ok model ∧
    hidden_units model = [10; 10] ∧
    metrics model = [metric] ∧
    metric [3%R; 5%R] (dict [("predictions", [[1%R]; [5%R]])]) =
      (rmse ← root_mean_squared_error [3%R; 5%R] [1%R; 5%R];
       mret (dict [("rmse", rmse)])).
Proof.
  destruct (@create_model_regressor Plain.trainer "taxi_trained" 1000
              ltac:(discriminate) (or_introl eq_refl))
    as (model & Hmodel & Hhidden & _ & _ & metric & Hmetrics & Hrmse & _).
  exists model, metric. do 3 (split; [assumption|]).
  apply (Hrmse [3%R; 5%R] [1%R; 5%R]). reflexivity.
Defined.

(** ** Reading the data *)

Section ReadDatasetFacts.
Context `{CsvKernel} `{FileOps}.

Lemma read_dataset_Ok (csv_path : pyval) (fs : gmap string (list string))
    (filenames : list string) :
  list_files csv_path fs = Ok filenames →
  read_dataset csv_path fs =
  Ok (concat (map (fun filename => map parse_row (drop 1 (TextLineDataset filename fs)))
                  filenames)).
Proof.
  intros Hfiles. unfold read_dataset. rewrite Hfiles. cbn [mbind result_bind].
  unfold flat_map, skip, mret, result_ret. f_equal.
  change (Z.to_nat 1) with 1%nat. clear Hfiles.
  induction filenames as [|filename filenames IH]; [done|].
  cbn [map concat]. by rewrite map_app, IH.
Qed.

(** An element of the concatenation comes from a line past the header of
    one of the files. *)
Lemma parsed_lines_origin (fs : gmap string (list string)) (filenames : list string)
    (element : result example) :
  element ∈ concat (map (fun filename => map parse_row (drop 1 (TextLineDataset filename fs)))
                        filenames) ↔
  ∃ filename j line,
    filename ∈ filenames ∧ (1 ≤ j)%nat ∧
    TextLineDataset filename fs !! j = Some line ∧ element = parse_row line.
Proof.
  induction filenames as [|filename filenames IH]; cbn [map concat].
  - split; [by intros ?%elem_of_nil|].
    by intros (? & ? & ? & ?%elem_of_nil & _).
  - rewrite elem_of_app, IH. split.
    + intros [Hhere|(f & j & line & Hf & Hj & Hline & ->)].
      * apply list_elem_of_In, in_map_iff in Hhere as (line & <- & Hin).
        apply list_elem_of_In, list_elem_of_lookup in Hin as (i & Hi).
        rewrite lookup_drop in Hi.
        exists filename, (1 + i)%nat, line. split; [left|]. by repeat split; try lia.
      * exists f, j, line. split; [by right|done].
    + intros (f & j & line & Hf & Hj & Hline & ->).
      apply elem_of_cons in Hf as [->|Hf].
      * left. apply list_elem_of_In, in_map, list_elem_of_In, list_elem_of_lookup.
        exists (j - 1)%nat. rewrite lookup_drop.
        by replace (1 + (j - 1))%nat with j by lia.
      * right. by exists f, j, line.
Qed.

(** With the files shuffled, not lost, [list_files] yields the files that
    exist and match the pattern. *)
Lemma list_files_elem (pattern : string) (fs : gmap string (list string))
    (filenames : list string) (f : string) :
  (∀ l, shuffle_files l ≡ₚ l) →
  list_files (PyStr pattern) fs = Ok filenames →
  f ∈ filenames ↔ is_Some (fs !! f) ∧ glob_match pattern f = true.
Proof.
  intros Hshuffle. unfold list_files. case_decide; [done|]. intros [= <-].
  rewrite Hshuffle, list_elem_of_filter, list_elem_of_fmap. split.
  - intros [Hmatch ([f' lines] & -> & Hin%elem_of_map_to_list)]. by split; [eexists|].
  - intros [[lines Hlines] Hmatch]. split; [done|].
    exists (f, lines). by split; [|apply elem_of_map_to_list].
Qed.

End ReadDatasetFacts.

(** C8. For every file that [list_files] yields for the pattern, the first
    line (the header) is skipped and every remaining line is parsed by
    [parse_row], in the order of the file: the dataset is, file after file,
    the parsed lines past the first.  So its elements are exactly the
    parsed lines of index 1 and above, and none is parsed from a header
    line.  The files are those that exist and match the pattern, when the
    shuffling of [list_files] only reorders them. *)
Theorem read_dataset_skips_headers `{CsvKernel} `{FileOps}
    (csv_path : pyval) (fs : gmap string (list string)) :
  match list_files csv_path fs with
  | Ok filenames =>
      ∃ dataset,
        read_dataset csv_path fs = Ok dataset ∧
        dataset =
          concat (map (fun filename =>
                         map parse_row (drop 1 (TextLineDataset filename fs)))
                      filenames) ∧
        (∀ element,
            element ∈ dataset ↔
            ∃ filename j line,
              filename ∈ filenames ∧ (1 ≤ j)%nat ∧
              TextLineDataset filename fs !! j = Some line ∧
              element = parse_row line) ∧
        (∀ pattern filename,
            csv_path = PyStr pattern → (∀ l, shuffle_files l ≡ₚ l) →
            filename ∈ filenames ↔
            is_Some (fs !! filename) ∧ glob_match pattern filename = true)
  | Raise e => read_dataset csv_path fs = Raise e
  end.
Proof.
  destruct (list_files csv_path fs) as [filenames|e] eqn:Hfiles.
  - eexists. split; [by apply read_dataset_Ok|]. split; [done|]. split.
    + intros element. apply parsed_lines_origin.
    + intros pattern filename -> Hshuffle. by apply list_files_elem.
  - unfold read_dataset. by rewrite Hfiles.
Qed.

(** The validation file: one element, parsed from the line after the
    header; the header itself does not parse and is not in the dataset. *)
Lemma read_dataset_skips_headers_witness :
  ∃ dataset,
    @read_dataset Plain.csv Plain.file_ops (PyStr "taxi-valid.csv") Plain.csv_files =
      Ok dataset ∧
    dataset = [@parse_row Plain.csv "7.0,,,,,,"] ∧
    @parse_row Plain.csv "fare_amount,dayofweek" ∉ dataset.
Proof.
  pose proof (@read_dataset_skips_headers Plain.csv Plain.file_ops
                (PyStr "taxi-valid.csv") Plain.csv_files) as Hread.
  assert (@list_files Plain.file_ops (PyStr "taxi-valid.csv") Plain.csv_files =
          Ok ["taxi-valid.csv"]) as Hfiles by reflexivity.
  rewrite Hfiles in Hread.
  destruct Hread as (dataset & Hread & -> & _).
  eexists. split; [exact Hread|]. split; [reflexivity|].
  intros Hin%list_elem_of_singleton.
  assert (@parse_row Plain.csv "fare_amount,dayofweek" = Raise InvalidArgumentError)
    as Hheader by reflexivity.
  assert (∃ parsed, @parse_row Plain.csv "7.0,,,,,," = Ok parsed) as [parsed Hline]
    by (eexists; reflexivity).
  rewrite Hheader, Hline in Hin. discriminate Hin.
Defined.

(** ** The training run *)




(** With [ignore_errors = True] the deletion never raises. *)
Lemma rmtree_ignore_errors (path : pyval) (w : world) :
  (rmtree path true w).2 = Ok ().
Proof.
  unfold rmtree.
  destruct (match path with PyStr p => rmtree_files w p | _ => _ end)
    as [fs [e|]]; done.
Qed.




Section TrainingFacts.
Context `{CsvKernel} `{FileOps} `{Trainer}.

(** A run whose parameters are there, and from which a model and a training
    spec can be built, sets the logging threshold, deletes the output
    directory and then enters the training loop, and ends as the loop
    ends. *)
Lemma train_and_evaluate_run (params : gmap string pyval)
    (OUTDIR TRAIN_DATA_PATH EVAL_DATA_PATH TRAIN_STEPS : pyval)
    (model : Estimator) (train_spec : TrainSpec) (w : world) :
  params !! "output_dir" = Some OUTDIR →
  params !! "train_data_path" = Some TRAIN_DATA_PATH →
  params !! "eval_data_path" = Some EVAL_DATA_PATH →
  params !! "train_steps" = Some TRAIN_STEPS →
  create_model OUTDIR TRAIN_STEPS = Ok model →
  new_TrainSpec (train_input_fn TRAIN_DATA_PATH 128) TRAIN_STEPS = Ok train_spec →
  train_and_evaluate params w =
  estimator_train_and_evaluate model train_spec
    {| es_input_fn := eval_input_fn EVAL_DATA_PATH 128;
       steps := None; start_delay_secs := 1; throttle_secs := 1;
       exporters := {| exporter_name := "exporter";
                       exp_serving_input_receiver_fn := serving_input_receiver_fn |} |}
    (rmtree OUTDIR true (set_verbosity INFO w).1).1.
Proof.
  intros Hout Htrain Heval Hsteps Hmodel Hspec.
  unfold train_and_evaluate, getitem. rewrite Hout, Htrain, Heval, Hsteps.
  cbv beta iota delta [mbind M_bind pure]. rewrite Hmodel, Hspec.
  cbv beta iota delta [mbind M_bind set_verbosity fst].
  pose proof (rmtree_ignore_errors OUTDIR
                {| files := files w; cwd := cwd w; verbosity := Some INFO |}) as Hok.
  destruct (rmtree OUTDIR true _) as [w' r]. cbn [fst snd] in Hok |- *.
  by rewrite Hok.
Qed.

(** A run whose model or training spec cannot be built raises what the
    builder raises, and leaves the world as it was. *)
Lemma train_and_evaluate_refused (params : gmap string pyval)
    (OUTDIR TRAIN_DATA_PATH EVAL_DATA_PATH TRAIN_STEPS : pyval) (e : exn) (w : world) :
  params !! "output_dir" = Some OUTDIR →
  params !! "train_data_path" = Some TRAIN_DATA_PATH →
  params !! "eval_data_path" = Some EVAL_DATA_PATH →
  params !! "train_steps" = Some TRAIN_STEPS →
  (model ← create_model OUTDIR TRAIN_STEPS;
   new_TrainSpec (train_input_fn TRAIN_DATA_PATH 128) TRAIN_STEPS) = Raise e →
  train_and_evaluate params w = (w, Raise e).
Proof.
  intros Hout Htrain Heval Hsteps Hfail.
  unfold train_and_evaluate, getitem. rewrite Hout, Htrain, Heval, Hsteps.
  cbv beta iota delta [mbind M_bind pure].
  destruct (create_model OUTDIR TRAIN_STEPS) as [model|e'];
    cbn [mbind result_bind] in Hfail; [|congruence].
  by rewrite Hfail.
Qed.

(** A run that lacks one of its four parameters raises [KeyError] for the
    first one it lacks, and leaves the world as it was. *)
Lemma train_and_evaluate_KeyError (params : gmap string pyval) (w : world) :
  match params !! "output_dir", params !! "train_data_path",
        params !! "eval_data_path", params !! "train_steps" with
  | Some _, Some _, Some _, Some _ => True
  | None, _, _, _ => train_and_evaluate params w = (w, Raise (KeyError "output_dir"))
  | _, None, _, _ => train_and_evaluate params w = (w, Raise (KeyError "train_data_path"))
  | _, _, None, _ => train_and_evaluate params w = (w, Raise (KeyError "eval_data_path"))
  | _, _, _, None => train_and_evaluate params w = (w, Raise (KeyError "train_steps"))
  end.
Proof.
  unfold train_and_evaluate, getitem. cbv beta iota delta [mbind M_bind pure].
  destruct (params !! "output_dir"); [|done].
  destruct (params !! "train_data_path"); [|done].
  destruct (params !! "eval_data_path"); [|done].
  by destruct (params !! "train_steps").
Qed.

(** The run reads four entries of its parameters and no other. *)
Lemma train_and_evaluate_reads (params params' : gmap string pyval) :
  params !! "output_dir" = params' !! "output_dir" →
  params !! "train_data_path" = params' !! "train_data_path" →
  params !! "eval_data_path" = params' !! "eval_data_path" →
  params !! "train_steps" = params' !! "train_steps" →
  train_and_evaluate params = train_and_evaluate params'.
Proof.
  intros Hout Htrain Heval Hsteps.
  unfold train_and_evaluate, getitem. by rewrite Hout, Htrain, Heval, Hsteps.
Qed.


End TrainingFacts.




(** ** Errors *)

(** On a first run there is no [taxi_trained] to delete: the deletion
    fails, with [FileNotFoundError] were it not told to ignore errors, and
    the run neither raises that error nor stops; it trains and returns. *)
Lemma rmtree_error_is_suppressed :
  rmtree_files Plain.first_run "taxi_trained" =
    (files Plain.first_run, Some FileNotFoundError) ∧
  rmtree (PyStr "taxi_trained") false Plain.first_run =
    (Plain.first_run, Raise FileNotFoundError) ∧
  (@train_and_evaluate Plain.csv Plain.file_ops Plain.trainer
     Plain.local_params Plain.first_run).2 = Ok () ∧
  files (@train_and_evaluate Plain.csv Plain.file_ops Plain.trainer
           Plain.local_params Plain.first_run).1 !! "taxi_trained/checkpoint"
    = Some ["model.ckpt"].
Proof. repeat split; reflexivity. Qed.

(** C3, amended. One error is suppressed in the package: that of deleting
    the output directory, which [train_and_evaluate] asks to ignore before it
    goes on to train.  No other error is caught, suppressed or transformed:
    a failure of decoding a row, of listing the data files, of the command
    line, of a missing parameter, of building the model or the training
    spec, or of the training loop reaches the caller as it was raised. *)
Theorem errors_propagate_except_rmtree `{CsvKernel} `{FileOps} `{Trainer} `{Text} :
  (∀ row e, decode_csv row CSV_DEFAULTS = Raise e → parse_row row = Raise e) ∧
  (∀ csv_path fs e,
      list_files csv_path fs = Raise e →
      read_dataset csv_path fs = Raise e ∧
      train_input_fn csv_path 128 fs = Raise e ∧
      eval_input_fn csv_path 128 fs = Raise e) ∧
  (∀ argv w e, parse_args parser argv = Raise e → main argv w = (w, Raise e)) ∧
  (∀ argv w args,
      parse_args parser argv = Ok args → main argv w = train_and_evaluate args w) ∧
  (∀ params w key,
      key ∈ ["output_dir"; "train_data_path"; "eval_data_path"; "train_steps"] →
      params !! key = None →
      ∃ key', params !! key' = None ∧
              train_and_evaluate params w = (w, Raise (KeyError key'))) ∧
  (∀ params w OUTDIR TRAIN_DATA_PATH EVAL_DATA_PATH TRAIN_STEPS e,
      params !! "output_dir" = Some OUTDIR →
      params !! "train_data_path" = Some TRAIN_DATA_PATH →
      params !! "eval_data_path" = Some EVAL_DATA_PATH →
      params !! "train_steps" = Some TRAIN_STEPS →
      (model ← create_model OUTDIR TRAIN_STEPS;
       new_TrainSpec (train_input_fn TRAIN_DATA_PATH 128) TRAIN_STEPS) = Raise e →
      train_and_evaluate params w = (w, Raise e)) ∧
  (∀ params w OUTDIR TRAIN_DATA_PATH EVAL_DATA_PATH TRAIN_STEPS model train_spec,
      params !! "output_dir" = Some OUTDIR →
      params !! "train_data_path" = Some TRAIN_DATA_PATH →
      params !! "eval_data_path" = Some EVAL_DATA_PATH →
      params !! "train_steps" = Some TRAIN_STEPS →
      create_model OUTDIR TRAIN_STEPS = Ok model →
      new_TrainSpec (train_input_fn TRAIN_DATA_PATH 128) TRAIN_STEPS = Ok train_spec →
      ∃ eval_spec w',
        train_and_evaluate params w =
          estimator_train_and_evaluate model train_spec eval_spec w' ∧
        ∀ w'' e,
          estimator_train_and_evaluate model train_spec eval_spec w' = (w'', Raise e) →
          train_and_evaluate params w = (w'', Raise e)) ∧
  (∀ path w, (rmtree path true w).2 = Ok ()).
Proof.
  split; [intros row e; apply parse_row_Raise|].
  split.
  { intros csv_path fs e Hfiles.
    assert (read_dataset csv_path fs = Raise e) as Hread
      by (unfold read_dataset; by rewrite Hfiles).
    unfold train_input_fn, eval_input_fn. by rewrite Hread. }
  split; [intros argv w e Hargs; unfold main, mbind, M_bind, pure; by rewrite Hargs|].
  split; [intros argv w args Hargs; unfold main, mbind, M_bind, pure; by rewrite Hargs|].
  split.
  { intros params w key Hkey Hnone.
    pose proof (train_and_evaluate_KeyError params w) as Hraise.
    destruct (params !! "output_dir") eqn:?; [|by eexists].
    destruct (params !! "train_data_path") eqn:?; [|by eexists].
    destruct (params !! "eval_data_path") eqn:?; [|by eexists].
    destruct (params !! "train_steps") eqn:?; [|by eexists].
    exfalso.
    repeat (apply elem_of_cons in Hkey as [->|Hkey]; [congruence|]).
    by apply elem_of_nil in Hkey. }
  split; [intros *; apply train_and_evaluate_refused|].
  split; [|apply rmtree_ignore_errors].
  intros params w OUTDIR TRAIN_DATA_PATH EVAL_DATA_PATH TRAIN_STEPS model train_spec
    Hout Htrain Heval Hsteps Hmodel Hspec.
  eexists _, _. split; [by eapply train_and_evaluate_run|].
  intros w'' e Hloop.
  by rewrite (train_and_evaluate_run _ _ _ _ _ _ _ _ Hout Htrain Heval Hsteps Hmodel Hspec).
Qed.

(** A training loop that fails makes the script fail with the same error. *)
Lemma errors_propagate_except_rmtree_witness :
  @parse_args Plain.text parser Plain.local_argv = Ok Plain.local_params ∧
  @main Plain.csv Plain.file_ops Plain.failing_trainer Plain.text
    Plain.local_argv Plain.first_run =
  @train_and_evaluate Plain.csv Plain.file_ops Plain.failing_trainer
    Plain.local_params Plain.first_run ∧
  (@train_and_evaluate Plain.csv Plain.file_ops Plain.failing_trainer
     Plain.local_params Plain.first_run).2 = Raise (OpError "training failed").
Proof.
  split; [reflexivity|]. split.
  - apply (@errors_propagate_except_rmtree Plain.csv Plain.file_ops
             Plain.failing_trainer Plain.text).
    reflexivity.
  - reflexivity.
Defined.

(** ** The command line *)

Lemma find_action_elem (p : list Action) (option_string : string) (a : Action) :
  find_action p option_string = Some a → a ∈ p.
Proof.
  unfold find_action. intros Hfind.
  destruct (find _ _) as [[s a']|] eqn:Hf; [|done]. injection Hfind as <-.
  apply find_some in Hf as [Hin _].
  unfold option_string_actions in Hin.
  apply in_concat in Hin as (l & Hl & Hin).
  apply in_map_iff in Hl as (a & <- & Ha).
  apply in_map_iff in Hin as (s' & [= _ <-] & _).
  by apply list_elem_of_In.
Qed.

Lemma get_option_tuples_elem (p : list Action) (option_string : string)
    (a : Action) (e : option string) :
  (a, e) ∈ get_option_tuples p option_string → a ∈ p.
Proof.
  assert (∀ sa, sa ∈ option_string_actions p → sa.2 ∈ p) as Hactions.
  { intros [s a'] Hin%list_elem_of_In. unfold option_string_actions in Hin.
    apply in_concat in Hin as (l & Hl & Hin).
    apply in_map_iff in Hl as (a'' & <- & Ha).
    apply in_map_iff in Hin as (s' & [= _ <-] & _).
    by apply list_elem_of_In. }
  unfold get_option_tuples.
  destruct (String.prefix "--" option_string).
  - destruct (split_eq option_string) as [option_prefix explicit_arg].
    intros (sa & Hsa & Hsome)%list_elem_of_omap.
    destruct (String.prefix option_prefix sa.1); [|done].
    injection Hsome as <- _. by apply Hactions.
  - intros (sa & Hsa & Hsome)%list_elem_of_omap.
    destruct (String.eqb sa.1 _); [injection Hsome as <- _; by apply Hactions|].
    destruct (String.prefix option_string sa.1); [|done].
    injection Hsome as <- _. by apply Hactions.
Qed.

Lemma substring_all (s : string) : substring 0 (String.length s) s = s.
Proof. induction s as [|c s IH]; [done|]. cbn. by rewrite IH. Qed.

Lemma parser_dest (a : Action) :
  a ∈ parser → kind a = store →
  dest a ∈ ({["train_data_path"; "train_steps"; "eval_data_path";
              "output_dir"; "job_dir"]} : gset string).
Proof.
  intros Ha Hkind. unfold parser, add_argument, ArgumentParser in Ha.
  cbn [app] in Ha.
  repeat (apply elem_of_cons in Ha as [->|Ha];
          [first [done | cbn; rewrite !elem_of_union, !elem_of_singleton; tauto]|]).
  by apply elem_of_nil in Ha.
Qed.

Lemma parser_store (a : Action) :
  a ∈ parser → kind a = store →
  (dest a, type a) ∈ [("train_data_path", type_str); ("train_steps", type_int);
                      ("eval_data_path", type_str); ("output_dir", type_str);
                      ("job_dir", type_str)].
Proof.
  intros Ha Hkind. unfold parser, add_argument, ArgumentParser in Ha.
  cbn [app] in Ha.
  repeat (apply elem_of_cons in Ha as [->|Ha];
          [first [discriminate Hkind | cbn; rewrite !elem_of_cons; tauto]|]).
  by apply elem_of_nil in Ha.
Qed.

Lemma takes_takes (a1 a2 : Action) (v1 v2 : pyval)
    (st : gmap string pyval * gset string) :
  dest a1 ≠ dest a2 →
  takes a1 v1 (takes a2 v2 st) = takes a2 v2 (takes a1 v1 st).
Proof.
  intros Hne. unfold takes. cbn [fst snd]. f_equal.
  - by apply insert_insert_ne.
  - by rewrite !(assoc_L (∪)), (comm_L (∪) {[dest a1]}).
Qed.

Section CommandLineFacts.
Context `{Text}.

(** An option that a string of the command line stands for is one of the
    parser's. *)
Lemma parse_optional_elem (p : list Action) (arg_string : string)
    (a : Action) (e : option string) :
  parse_optional p arg_string = Optional a e → a ∈ p.
Proof.
  unfold parse_optional. destruct arg_string as [|c s]; [done|].
  destruct (negb _); [done|].
  destruct (find_action p (String c s)) as [a'|] eqn:Hexact.
  { intros [= <- _]. by eapply find_action_elem. }
  destruct (_ =? _)%nat; [done|].
  destruct (split_eq (String c s)) as [option_string explicit_arg].
  assert (match get_option_tuples p (String c s) with
          | [] => if negative_number (String c s) then Positional
                  else if has_space (String c s) then Positional else Unknown
          | [(a0, explicit_arg0)] => Optional a0 explicit_arg0
          | _ :: _ :: _ => Ambiguous
          end = Optional a e → a ∈ p) as Htuples.
  { destruct (get_option_tuples p (String c s)) as [|[a0 e0] [|]] eqn:Ht.
    - by repeat case_match.
    - intros [= <- <-]. eapply get_option_tuples_elem. rewrite Ht. by left.
    - done. }
  destruct explicit_arg as [x|]; [|exact Htuples].
  destruct (find_action p option_string) as [a'|] eqn:Hfound; [|exact Htuples].
  intros [= <- _]. by eapply find_action_elem.
Qed.

(** The value an option stores for one string: the empty list when the
    string is [--], and the string at the type of the option when not. *)
Lemma get_values_one (a : Action) (s : string) :
  get_values a [s] =
  if String.eqb s "--" then Ok (PyList []) else get_value (type a) s.
Proof.
  unfold get_values. cbn [remove_first]. by destruct (String.eqb s "--").
Qed.

Lemma get_values_Raise (a : Action) (s : string) (e : exn) :
  get_values a [s] = Raise e → e = SystemExit.
Proof.
  rewrite get_values_one. destruct (String.eqb s "--"); [done|].
  unfold get_value. destruct (type a); [done|].
  destruct (py_int s); [done|]. by intros [= <-].
Qed.

(** What holds of the namespace before the command line is read, and is
    kept by every value it stores, holds after. *)
Lemma consume_invariant (p : list Action)
    (Q : gmap string pyval * gset string → Prop) (argv : list string)
    (st st' : gmap string pyval * gset string) :
  consume p argv st = Ok st' →
  Q st →
  (∀ arg_string a e s v st0,
      arg_string ∈ argv → parse_optional p arg_string = Optional a e →
      kind a = store → get_values a [s] = Ok v →
      Q st0 → Q (takes a v st0)) →
  Q st'.
Proof.
  remember (length argv) as n eqn:Hn.
  revert argv st Hn. induction (lt_wf n) as [n _ IH].
  intros argv st -> Hconsume Hst Hkeep.
  destruct argv as [|arg_string rest]; [by injection Hconsume as <-|].
  cbn [consume] in Hconsume.
  destruct (parse_optional p arg_string) as [|a e| |] eqn:Hclass; try done.
  destruct (kind a) eqn:Hkind; [|done].
  destruct e as [s|].
  - apply bind_Ok in Hconsume as (v & Hv & Hconsume).
    eapply (IH (length rest)); [cbn; lia | done | exact Hconsume | |].
    + eapply Hkeep; [by left|done..].
    + intros x a' e' s' v' st1 Hin. apply (Hkeep x a' e' s' v' st1). by right.
  - destruct rest as [|s rest']; [done|].
    destruct (parse_optional p s); try done.
    apply bind_Ok in Hconsume as (v & Hv & Hconsume).
    eapply (IH (length rest')); [cbn; lia | done | exact Hconsume | |].
    + eapply Hkeep; [by left|done..].
    + intros x a' e' s' v' st1 Hin. apply (Hkeep x a' e' s' v' st1). by do 2 right.
Qed.

(** Reading the command line fails in one way: the process exits. *)
Lemma consume_Raise (p : list Action) (argv : list string)
    (st : gmap string pyval * gset string) (e : exn) :
  consume p argv st = Raise e → e = SystemExit.
Proof.
  remember (length argv) as n eqn:Hn.
  revert argv st Hn. induction (lt_wf n) as [n _ IH].
  intros argv st -> Hconsume.
  destruct argv as [|arg_string rest]; [done|].
  cbn [consume] in Hconsume.
  assert (∀ a s, ∀ k : pyval → result (gmap string pyval * gset string),
            get_values a [s] ≫= k = Raise e →
            e = SystemExit ∨ ∃ v, k v = Raise e) as Hvalue.
  { intros a s k. destruct (get_values a [s]) as [v|e'] eqn:Hv.
    - right. by exists v.
    - intros [= <-]. left. by eapply get_values_Raise. }
  destruct (parse_optional p arg_string) as [|a x| |]; try congruence.
  destruct (kind a); [|congruence].
  destruct x as [s|].
  - apply Hvalue in Hconsume as [->|(v & Hconsume)]; [done|].
    eapply (IH (length rest)); [cbn; lia | done | exact Hconsume].
  - destruct rest as [|s rest']; [congruence|].
    destruct (parse_optional p s); try congruence.
    apply Hvalue in Hconsume as [->|(v & Hconsume)]; [done|].
    eapply (IH (length rest')); [cbn; lia | done | exact Hconsume].
Qed.

Lemma parse_args_Ok (argv : list string) (args : gmap string pyval) :
  parse_args parser argv = Ok args →
  ∃ seen,
    consume parser argv (defaults parser, ∅) = Ok (args, seen) ∧
    ∀ a, a ∈ parser → required a = true → dest a ∈ seen.
Proof.
  unfold parse_args. intros Hargs.
  apply bind_Ok in Hargs as ([namespace seen] & Hconsume & Hargs).
  destruct (forallb _ parser) eqn:Hall; [|done]. injection Hargs as ->.
  exists seen. split; [exact Hconsume|].
  intros a Ha Hreq. rewrite forallb_forall in Hall.
  specialize (Hall a (proj1 (list_elem_of_In _ _) Ha)). rewrite Hreq in Hall.
  by apply bool_decide_eq_true in Hall.
Qed.

Lemma parse_args_Raise (argv : list string) (e : exn) :
  parse_args parser argv = Raise e → e = SystemExit.
Proof.
  unfold parse_args.
  destruct (consume parser argv _) as [[namespace seen]|e'] eqn:Hconsume.
  - cbn [mbind result_bind]. destruct (forallb _ parser); congruence.
  - intros [= <-]. by eapply consume_Raise.
Qed.

(** The keys of the namespace are the five destinations, whatever the
    command line. *)
Lemma parse_args_dom (argv : list string) (args : gmap string pyval) :
  parse_args parser argv = Ok args →
  dom args = ({["train_data_path"; "train_steps"; "eval_data_path";
                "output_dir"; "job_dir"]} : gset string).
Proof.
  intros (seen & Hconsume & _)%parse_args_Ok.
  apply (consume_invariant parser
           (fun st => dom st.1 = ({["train_data_path"; "train_steps"; "eval_data_path";
                                    "output_dir"; "job_dir"]} : gset string))
           argv _ _ Hconsume); [reflexivity|].
  intros arg_string a e s v st0 _ Ha%parse_optional_elem Hkind _ Hdom.
  unfold takes. cbn beta iota delta [fst snd]. rewrite dom_insert_L, Hdom.
  apply subseteq_union_1_L, singleton_subseteq_l. by apply parser_dest.
Qed.

Lemma given_false (p : list Action) (argv : list string) (d arg_string : string)
    (a : Action) (e : option string) :
  given p argv d = false → arg_string ∈ argv →
  parse_optional p arg_string = Optional a e → dest a ≠ d.
Proof.
  unfold given. intros Hgiven Hin Hclass <-.
  apply not_true_iff_false in Hgiven. apply Hgiven.
  apply existsb_exists. exists arg_string.
  split; [by apply list_elem_of_In|]. rewrite Hclass. apply String.eqb_refl.
Qed.

(** An option that the command line does not give keeps its default and is
    not counted as given. *)
Lemma consume_not_given (argv : list string) (d : string)
    (st st' : gmap string pyval * gset string) :
  given parser argv d = false →
  consume parser argv st = Ok st' →
  st'.1 !! d = st.1 !! d ∧ (d ∈ st'.2 → d ∈ st.2).
Proof.
  intros Hgiven Hconsume.
  apply (consume_invariant parser
           (fun st0 => st0.1 !! d = st.1 !! d ∧ (d ∈ st0.2 → d ∈ st.2))
           argv _ _ Hconsume); [done|].
  intros arg_string a e s v st0 Hin Hclass _ _ [Hlookup Hseen].
  pose proof (given_false _ _ _ _ _ _ Hgiven Hin Hclass) as Hne.
  unfold takes. cbn beta iota delta [fst snd]. split; [by rewrite lookup_insert_ne|].
  intros [Hd%elem_of_singleton|Hd]%elem_of_union; [done|by apply Hseen].
Qed.

(** The value under a destination after the command line is read: one
    that an option stored, or the one there before. *)
Lemma consume_value (d : string) (P : pyval → Prop) (argv : list string)
    (st st' : gmap string pyval * gset string) :
  (∀ a s v, a ∈ parser → kind a = store → dest a = d →
            get_values a [s] = Ok v → P v) →
  consume parser argv st = Ok st' →
  (∃ v, st'.1 !! d = Some v ∧ P v) ∨
  (st'.1 !! d = st.1 !! d ∧ (d ∈ st'.2 → d ∈ st.2)).
Proof.
  intros Hstored Hconsume.
  apply (consume_invariant parser
           (fun st0 => (∃ v, st0.1 !! d = Some v ∧ P v) ∨
                       (st0.1 !! d = st.1 !! d ∧ (d ∈ st0.2 → d ∈ st.2)))
           argv _ _ Hconsume); [by right|].
  intros arg_string a e s v st0 _ Ha%parse_optional_elem Hkind Hv Hst0.
  unfold takes. cbn beta iota delta [fst snd].
  destruct (decide (dest a = d)) as [Hd|Hd].
  - left. exists v. rewrite Hd, lookup_insert_eq. split; [done|]. by eapply Hstored.
  - rewrite lookup_insert_ne by done.
    destruct Hst0 as [?|[Hlookup Hseen]]; [by left|right].
    split; [done|]. intros [?%elem_of_singleton|?]%elem_of_union; [done|by apply Hseen].
Qed.

(** What an option of the parser stores: a string, an integer for
    [--train_steps], or the empty list for a value written [--]. *)
Lemma get_values_typed (a : Action) (d s : string) (v : pyval) :
  a ∈ parser → kind a = store → dest a = d →
  get_values a [s] = Ok v →
  v = PyList [] ∨
  (if decide (d = "train_steps") then ∃ n, v = PyInt n else v = PyStr s).
Proof.
  intros Ha Hkind Hd Hv. rewrite get_values_one in Hv.
  destruct (String.eqb s "--"); [left; by injection Hv|right].
  apply parser_store in Ha; [|done].
  rewrite !elem_of_cons, elem_of_nil in Ha.
  destruct Ha as [Ha|[Ha|[Ha|[Ha|[Ha|[]]]]]]; injection Ha as Hdest Htype;
    rewrite Htype in Hv; rewrite <- Hd, Hdest; cbn in Hv |- *;
    first [ by injection Hv
          | destruct (py_int s); [injection Hv as <-; by eexists | done] ].
Qed.

(** The values of the dictionary have the types the parser gives them. *)
Lemma parse_args_values (argv : list string) (args : gmap string pyval) :
  parse_args parser argv = Ok args →
  (∀ d, d ∈ ["train_data_path"; "eval_data_path"; "output_dir"] →
        args !! d = Some (PyList []) ∨ ∃ s, args !! d = Some (PyStr s)) ∧
  (args !! "train_steps" = Some (PyList []) ∨
   ∃ n, args !! "train_steps" = Some (PyInt n)) ∧
  (args !! "job_dir" = Some PyNone ∨ args !! "job_dir" = Some (PyList []) ∨
   ∃ s, args !! "job_dir" = Some (PyStr s)).
Proof.
  intros (seen & Hconsume & Hrequired)%parse_args_Ok.
  assert (∀ d, (∃ v, args !! d = Some v ∧
                     (v = PyList [] ∨
                      if decide (d = "train_steps") then ∃ n, v = PyInt n
                      else ∃ s, v = PyStr s)) ∨
               (args !! d = defaults parser !! d ∧ d ∉ seen)) as Hvalue.
  { intros d.
    destruct (consume_value d
                (fun v => v = PyList [] ∨
                          if decide (d = "train_steps") then ∃ n, v = PyInt n
                          else ∃ s, v = PyStr s) argv _ _
                ltac:(intros a s v Ha Hkind Hd Hv;
                      destruct (get_values_typed a d s v Ha Hkind Hd Hv) as [?|Ht];
                      [by left|right];
                      destruct (decide (d = "train_steps")); [done|by exists s])
                Hconsume)
      as [?|[Hlookup Hseen]]; [by left|right].
    split; [exact Hlookup|]. intros Hin. by apply Hseen, elem_of_empty in Hin. }
  assert (∀ d, d ∈ ["train_data_path"; "eval_data_path"; "output_dir"] → d ∈ seen)
    as Hseen.
  { intros d Hin.
    apply (Hrequired {| option_strings := ["--" ++ d]; dest := d; kind := store;
                        type := type_str; arg_default := Some PyNone;
                        required := true |}); [|done].
    unfold parser, add_argument, ArgumentParser. cbn [app].
    rewrite !elem_of_cons, elem_of_nil in Hin. rewrite !elem_of_cons.
    destruct Hin as [->|[->|[->|[]]]]; tauto. }
  split; [|split].
  - intros d Hd. destruct (Hvalue d) as [(v & Hv & Hkind)|[_ Hnot]];
      [|by destruct Hnot; apply Hseen].
    rewrite Hv. destruct Hkind as [->|Hkind]; [by left|right].
    rewrite decide_False in Hkind
      by (rewrite !elem_of_cons, elem_of_nil in Hd; by destruct Hd as [->|[->|[->|[]]]]).
    destruct Hkind as [s ->]. by exists s.
  - destruct (Hvalue "train_steps") as [(v & Hv & Hkind)|[Hdefault _]].
    + rewrite Hv. destruct Hkind as [->|[n ->]]; [by left|right; by exists n].
    + right. exists 1000. by rewrite Hdefault.
  - destruct (Hvalue "job_dir") as [(v & Hv & Hkind)|[Hdefault _]].
    + rewrite Hv. destruct Hkind as [->|[s ->]]; [by right; left|right; right; by exists s].
    + left. by rewrite Hdefault.
Qed.

(** An option written in full with its value after [=] is read as that
    option with that value. *)
Lemma parse_optional_explicit (option_string v : string) :
  option_string ∈ ["--train_data_path"; "--train_steps"; "--eval_data_path";
                   "--output_dir"; "--job-dir"] →
  ∃ a, parse_optional parser (option_string ++ "=" ++ v) = Optional a (Some v) ∧
       a ∈ parser ∧ kind a = store ∧ dest a = dest_of option_string ∧
       type a = (if decide (option_string = "--train_steps") then type_int
                 else type_str).
Proof.
  intros Hin. rewrite !elem_of_cons, elem_of_nil in Hin.
  assert (∀ a, a ∈ parser ↔ In a parser) as Hparser
    by (intros a; apply list_elem_of_In).
  destruct Hin as [->|[->|[->|[->|[->|[]]]]]].
  - exists {| option_strings := ["--train_data_path"]; dest := "train_data_path";
              kind := store; type := type_str; arg_default := Some PyNone;
              required := true |}.
    split; [|split; [apply Hparser; cbn; tauto | by repeat split]].
    destruct v as [|c v]; [reflexivity|].
    rewrite <- (substring_all v) at 2. reflexivity.
  - exists {| option_strings := ["--train_steps"]; dest := "train_steps";
              kind := store; type := type_int; arg_default := Some (PyInt 1000);
              required := false |}.
    split; [|split; [apply Hparser; cbn; tauto | by repeat split]].
    destruct v as [|c v]; [reflexivity|].
    rewrite <- (substring_all v) at 2. reflexivity.
  - exists {| option_strings := ["--eval_data_path"]; dest := "eval_data_path";
              kind := store; type := type_str; arg_default := Some PyNone;
              required := true |}.
    split; [|split; [apply Hparser; cbn; tauto | by repeat split]].
    destruct v as [|c v]; [reflexivity|].
    rewrite <- (substring_all v) at 2. reflexivity.
  - exists {| option_strings := ["--output_dir"]; dest := "output_dir";
              kind := store; type := type_str; arg_default := Some PyNone;
              required := true |}.
    split; [|split; [apply Hparser; cbn; tauto | by repeat split]].
    destruct v as [|c v]; [reflexivity|].
    rewrite <- (substring_all v) at 2. reflexivity.
  - exists {| option_strings := ["--job-dir"]; dest := "job_dir";
              kind := store; type := type_str; arg_default := Some PyNone;
              required := false |}.
    split; [|split; [apply Hparser; cbn; tauto | by repeat split]].
    destruct v as [|c v]; [reflexivity|].
    rewrite <- (substring_all v) at 2. reflexivity.
Qed.

(** An option stored ahead of a command line that does not give it
    stays as stored. *)
Lemma consume_takes (argv : list string) (a : Action) (v : pyval)
    (st st' : gmap string pyval * gset string) :
  given parser argv (dest a) = false →
  consume parser argv st = Ok st' →
  consume parser argv (takes a v st) = Ok (takes a v st').
Proof.
  remember (length argv) as n eqn:Hn.
  revert argv st Hn. induction (lt_wf n) as [n _ IH].
  intros argv st -> Hgiven Hconsume.
  destruct argv as [|arg_string rest]; [by injection Hconsume as <-|].
  cbn [consume] in Hconsume |- *.
  destruct (parse_optional parser arg_string) as [|a1 e| |] eqn:Hclass; try done.
  assert (dest a1 ≠ dest a) as Hne
    by (eapply given_false; [exact Hgiven | by left | exact Hclass]).
  assert (given parser rest (dest a) = false) as Hrest.
  { unfold given in Hgiven |- *. cbn [existsb] in Hgiven.
    by apply orb_false_iff in Hgiven as [_ ?]. }
  destruct (kind a1); [|done].
  destruct e as [s|].
  - destruct (get_values a1 [s]) as [v1|]; [|done].
    cbn [mbind result_bind] in Hconsume |- *.
    rewrite takes_takes by done.
    by apply (IH (length rest)); [cbn; lia|..].
  - destruct rest as [|s rest']; [done|].
    destruct (parse_optional parser s) eqn:Hs; try done.
    destruct (get_values a1 [s]) as [v1|]; [|done].
    cbn [mbind result_bind] in Hconsume |- *.
    rewrite takes_takes by done.
    apply (IH (length rest')); [cbn; lia | done | | done].
    unfold given in Hrest |- *. cbn [existsb] in Hrest.
    by apply orb_false_iff in Hrest as [_ ?].
Qed.

(** [--job-dir=dir] ahead of a command line that parses and does not
    give the option itself: the command line still parses, to the same
    namespace but for [job_dir], which holds [dir], or the empty list when
    [dir] is [--]. *)
Lemma parse_args_job_dir (argv : list string) (args : gmap string pyval)
    (dir : string) :
  parse_args parser argv = Ok args →
  given parser argv "job_dir" = false →
  parse_args parser (("--job-dir=" ++ dir) :: argv) =
  Ok (<["job_dir" := if String.eqb dir "--" then PyList [] else PyStr dir]> args).
Proof.
  intros (seen & Hconsume & Hrequired)%parse_args_Ok Hgiven.
  destruct (parse_optional_explicit "--job-dir" dir)
    as (a & Hclass & Ha & Hkind & Hdest & Htype); [rewrite !elem_of_cons; tauto|].
  change ("--job-dir" ++ "=" ++ dir) with ("--job-dir=" ++ dir) in Hclass.
  change (dest_of "--job-dir") with "job_dir" in Hdest.
  rewrite decide_False in Htype by done.
  unfold parse_args. cbn [consume]. rewrite Hclass, Hkind, get_values_one, Htype.
  assert ((if String.eqb dir "--" then Ok (PyList []) else get_value type_str dir) =
          Ok (if String.eqb dir "--" then PyList [] else PyStr dir)) as ->
    by (by destruct (String.eqb dir "--")).
  cbn [mbind result_bind].
  rewrite (consume_takes argv a _ _ (args, seen)); [|by rewrite Hdest|done].
  cbn [mbind result_bind takes fst snd].
  rewrite (proj2 (forallb_forall _ parser)); [by rewrite Hdest|].
  intros a' Ha'%list_elem_of_In.
  destruct (required a') eqn:Hreq'; [|done].
  apply bool_decide_eq_true, elem_of_union. right. by apply Hrequired.
Qed.

End CommandLineFacts.

(** C7. The entry point parses the command line into a flat dictionary
    with exactly the keys [train_data_path], [train_steps], [eval_data_path],
    [output_dir] and [job_dir], each value [None], an integer, a string or an
    empty list, and calls [train_and_evaluate] with that very dictionary and
    nothing else.  [train_and_evaluate] reads [output_dir],
    [train_data_path], [eval_data_path] and [train_steps] from it: without
    any one of the four it raises [KeyError] for that key; the model is built
    from [output_dir] and [train_steps], the training spec from
    [train_data_path] and [train_steps], the evaluation spec from
    [eval_data_path], and the directory deleted is [output_dir]; and two
    dictionaries that agree on these four make the same run. *)
Theorem cli_params_passed_unchanged `{CsvKernel} `{FileOps} `{Trainer} `{Text}
    (argv : list string) (args : gmap string pyval) :
  parse_args parser argv = Ok args →
  dom args = ({["train_data_path"; "train_steps"; "eval_data_path";
                "output_dir"; "job_dir"]} : gset string) ∧
  (∀ key v, args !! key = Some v →
            v = PyNone ∨ (∃ n, v = PyInt n) ∨ (∃ s, v = PyStr s) ∨ v = PyList []) ∧
  (∀ w, main argv w = train_and_evaluate args w) ∧
  (∀ w key,
      key ∈ ["output_dir"; "train_data_path"; "eval_data_path"; "train_steps"] →
      train_and_evaluate (delete key args) w = (w, Raise (KeyError key))) ∧
  (∀ w OUTDIR TRAIN_DATA_PATH EVAL_DATA_PATH TRAIN_STEPS model train_spec,
      args !! "output_dir" = Some OUTDIR →
      args !! "train_data_path" = Some TRAIN_DATA_PATH →
      args !! "eval_data_path" = Some EVAL_DATA_PATH →
      args !! "train_steps" = Some TRAIN_STEPS →
      create_model OUTDIR TRAIN_STEPS = Ok model →
      new_TrainSpec (train_input_fn TRAIN_DATA_PATH 128) TRAIN_STEPS = Ok train_spec →
      train_and_evaluate args w =
      estimator_train_and_evaluate model train_spec
        {| es_input_fn := eval_input_fn EVAL_DATA_PATH 128;
           steps := None; start_delay_secs := 1; throttle_secs := 1;
           exporters := {| exporter_name := "exporter";
                           exp_serving_input_receiver_fn :=
                             serving_input_receiver_fn |} |}
        (rmtree OUTDIR true (set_verbosity INFO w).1).1) ∧
  (∀ params,
      params !! "output_dir" = args !! "output_dir" →
      params !! "train_data_path" = args !! "train_data_path" →
      params !! "eval_data_path" = args !! "eval_data_path" →
      params !! "train_steps" = args !! "train_steps" →
      train_and_evaluate params = train_and_evaluate args).
Proof.
  intros Hargs. pose proof (parse_args_dom _ _ Hargs) as Hdom.
  split; [exact Hdom|]. split; [|split; [|split; [|split]]].
  - intros key v Hkey.
    assert (key ∈ dom args) as Hin by (apply elem_of_dom; by eexists).
    destruct (parse_args_values _ _ Hargs) as (Hpaths & Hsteps & Hjob).
    rewrite Hdom, !elem_of_union, !elem_of_singleton in Hin.
    destruct Hin as [[[[->| ->]| ->]| ->]| ->].
    + destruct (Hpaths "train_data_path") as [Hv|[s Hv]];
        [rewrite !elem_of_cons; tauto|..]; rewrite Hv in Hkey; injection Hkey as <-;
        [tauto|right; right; left; by exists s].
    + destruct Hsteps as [Hv|[n Hv]]; rewrite Hv in Hkey; injection Hkey as <-;
        [tauto|right; left; by exists n].
    + destruct (Hpaths "eval_data_path") as [Hv|[s Hv]];
        [rewrite !elem_of_cons; tauto|..]; rewrite Hv in Hkey; injection Hkey as <-;
        [tauto|right; right; left; by exists s].
    + destruct (Hpaths "output_dir") as [Hv|[s Hv]];
        [rewrite !elem_of_cons; tauto|..]; rewrite Hv in Hkey; injection Hkey as <-;
        [tauto|right; right; left; by exists s].
    + destruct Hjob as [Hv|[Hv|[s Hv]]]; rewrite Hv in Hkey; injection Hkey as <-;
        [tauto|tauto|right; right; left; by exists s].
  - intros w. unfold main, mbind, M_bind, pure. by rewrite Hargs.
  - intros w key Hkey.
    assert (∀ k, k ∈ ["output_dir"; "train_data_path"; "eval_data_path"; "train_steps"] →
                 k ≠ key → is_Some (delete key args !! k)) as Hthere.
    { intros k Hk Hne. rewrite lookup_delete_ne by done. apply elem_of_dom.
      rewrite Hdom, !elem_of_union, !elem_of_singleton.
      rewrite !elem_of_cons, elem_of_nil in Hk. tauto. }
    pose proof (train_and_evaluate_KeyError (delete key args) w) as Hraise.
    rewrite !elem_of_cons, elem_of_nil in Hkey.
    destruct Hkey as [->|[->|[->|[->|[]]]]].
    + by rewrite lookup_delete_eq in Hraise.
    + destruct (Hthere "output_dir") as [? Ho]; [rewrite !elem_of_cons; tauto|done|].
      by rewrite Ho, lookup_delete_eq in Hraise.
    + destruct (Hthere "output_dir") as [? Ho]; [rewrite !elem_of_cons; tauto|done|].
      destruct (Hthere "train_data_path") as [? Ht]; [rewrite !elem_of_cons; tauto|done|].
      by rewrite Ho, Ht, lookup_delete_eq in Hraise.
    + destruct (Hthere "output_dir") as [? Ho]; [rewrite !elem_of_cons; tauto|done|].
      destruct (Hthere "train_data_path") as [? Ht]; [rewrite !elem_of_cons; tauto|done|].
      destruct (Hthere "eval_data_path") as [? He]; [rewrite !elem_of_cons; tauto|done|].
      by rewrite Ho, Ht, He, lookup_delete_eq in Hraise.
  - intros w *. apply train_and_evaluate_run.
  - intros params. apply train_and_evaluate_reads.
Qed.

(** The command line of the notebook's local run. *)
Lemma cli_params_passed_unchanged_witness :
  @parse_args Plain.text parser Plain.local_argv = Ok Plain.local_params ∧
  @main Plain.csv Plain.file_ops Plain.trainer Plain.text
    Plain.local_argv Plain.second_run =
  @train_and_evaluate Plain.csv Plain.file_ops Plain.trainer
    Plain.local_params Plain.second_run ∧
  @train_and_evaluate Plain.csv Plain.file_ops Plain.trainer
    (delete "output_dir" Plain.local_params) Plain.second_run =
  (Plain.second_run, Raise (KeyError "output_dir")).
Proof.
  assert (@parse_args Plain.text parser Plain.local_argv = Ok Plain.local_params)
    as Hargs by reflexivity.
  destruct (@cli_params_passed_unchanged Plain.csv Plain.file_ops Plain.trainer
              Plain.text Plain.local_argv Plain.local_params Hargs)
    as (_ & _ & Hmain & Hkey & _).
  split; [exact Hargs|]. split; [apply Hmain|].
  apply Hkey. by left.
Defined.

(** C9. Parsing the command line fails, ending the process, whenever
    [--train_data_path], [--eval_data_path] or [--output_dir] is not given;
    when [--train_steps] is not given the number of steps is the integer
    1000; [--job-dir] is optional and accepted, with any value, which is
    stored under [job_dir] (a value written [--] as the empty list), and left
    [None] when not given; and [train_and_evaluate] never reads it: the run is
    the same whatever is stored there. *)
Theorem cli_required_and_defaults `{CsvKernel} `{FileOps} `{Trainer} `{Text}
    (argv : list string) :
  (∀ d, d ∈ ["train_data_path"; "eval_data_path"; "output_dir"] →
        given parser argv d = false →
        parse_args parser argv = Raise SystemExit) ∧
  (∀ args, parse_args parser argv = Ok args →
           given parser argv "train_steps" = false →
           args !! "train_steps" = Some (PyInt 1000)) ∧
  (∀ args, parse_args parser argv = Ok args →
           given parser argv "job_dir" = false →
           args !! "job_dir" = Some PyNone ∧
           ∀ dir, parse_args parser (("--job-dir=" ++ dir) :: argv) =
                  Ok (<["job_dir" := if String.eqb dir "--" then PyList []
                                     else PyStr dir]> args)) ∧
  (∀ params v,
      train_and_evaluate (<["job_dir" := v]> params) = train_and_evaluate params).
Proof.
  split; [|split; [|split]].
  - intros d Hd Hgiven.
    destruct (parse_args parser argv) as [args|e] eqn:Hargs;
      [|by rewrite (parse_args_Raise _ _ Hargs)].
    exfalso.
    apply parse_args_Ok in Hargs as (seen & Hconsume & Hrequired).
    destruct (consume_not_given _ _ _ _ Hgiven Hconsume) as [_ Hseen].
    cbn [snd] in Hseen. apply (not_elem_of_empty (C:=gset string) d), Hseen.
    repeat (apply elem_of_cons in Hd as [->|Hd];
            [match goal with |- ?d ∈ _ =>
               apply (Hrequired {| option_strings := ["--" ++ d]; dest := d;
                                   kind := store; type := type_str;
                                   arg_default := Some PyNone; required := true |});
                 [unfold parser, add_argument, ArgumentParser; cbn [app];
                  rewrite !elem_of_cons; tauto | done]
             end|]).
    by apply elem_of_nil in Hd.
  - intros args (seen & Hconsume & _)%parse_args_Ok Hgiven.
    destruct (consume_not_given _ _ _ _ Hgiven Hconsume) as [Hlookup _].
    cbn [fst] in Hlookup. by rewrite Hlookup.
  - intros args Hargs Hgiven. split; [|intros dir; by apply parse_args_job_dir].
    apply parse_args_Ok in Hargs as (seen & Hconsume & _).
    destruct (consume_not_given _ _ _ _ Hgiven Hconsume) as [Hlookup _].
    cbn [fst] in Hlookup. by rewrite Hlookup.
  - intros params v. apply train_and_evaluate_reads; by rewrite lookup_insert_ne.
Qed.

(** The command line of the notebook's local run gives neither
    [--job-dir] nor, with its last option dropped, [--output_dir]. *)
Lemma cli_required_and_defaults_witness :
  @given Plain.text parser (take 3 Plain.local_argv) "output_dir" = false ∧
  @parse_args Plain.text parser (take 3 Plain.local_argv) = Raise SystemExit ∧
  @given Plain.text parser Plain.local_argv "job_dir" = false ∧
  @parse_args Plain.text parser
    ("--job-dir=gs://cloud-training-bucket/taxifare" :: Plain.local_argv) =
  Ok (<["job_dir" := PyStr "gs://cloud-training-bucket/taxifare"]> Plain.local_params).
Proof.
  pose proof (@cli_required_and_defaults Plain.csv Plain.file_ops Plain.trainer
                Plain.text (take 3 Plain.local_argv)) as (Hrequired & _).
  pose proof (@cli_required_and_defaults Plain.csv Plain.file_ops Plain.trainer
                Plain.text Plain.local_argv) as (_ & _ & Hjob & _).
  split; [reflexivity|]. split.
  - apply (Hrequired "output_dir"); [|reflexivity].
    rewrite !elem_of_cons. tauto.
  - split; [reflexivity|].
    destruct (Hjob Plain.local_params eq_refl eq_refl) as [_ Hstored].
    exact (Hstored "gs://cloud-training-bucket/taxifare").
Defined.

(** The validation file of the instance: its header is skipped and its one
    data line, with six empty fields, parses to the defaults. *)
Example read_dataset_valid :
  @read_dataset Plain.csv Plain.file_ops (PyStr "taxi-valid.csv") Plain.csv_files =
  Ok [Ok (dict [("dayofweek", TInt32 1); ("hourofday", TInt32 0);
                ("pickuplon", TFloat32 (-74.0)); ("pickuplat", TFloat32 40.0);
                ("dropofflon", TFloat32 (-74.0)); ("dropofflat", TFloat32 40.7)],
          TFloat32 7.0)].
Proof. reflexivity. Qed.

(** * Further properties *)

(** ** Rows that parse and rows that do not *)

Lemma mapR_Raise {A B : Type} (f : A → result B) (l : list A) (e : exn) :
  mapR f l = Raise e → ∃ a, a ∈ l ∧ f a = Raise e.
Proof.
  induction l as [|a l IH]; [done|]. cbn [mapR].
  destruct (f a) as [b|e'] eqn:Hfa; cbn [mbind result_bind].
  - destruct (mapR f l) as [bs|e'] eqn:Hl; [done|]. intros [= <-].
    destruct (IH eq_refl) as (a' & Hin & Ha'). exists a'. by split; [right|].
  - intros [= <-]. exists a. by split; [left|].
Qed.

Section RowFacts.
Context `{CsvKernel}.

Lemma decode_field_Ok_iff (field : string) (dt : DType) (d : tensor) :
  (∃ f, decode_field (field, (dt, Some d)) = Ok f) ↔
  field = "" ∨ readable dt field = true.
Proof.
  unfold decode_field, readable. case_decide as Hempty.
  - split; [by left | by eexists].
  - destruct dt.
    + destruct (safe_strto32 field) as [z|]; split;
        [by right; apply bool_decide_eq_true | by eexists
        | by intros [f ?] | intros [?|[? ?]%bool_decide_eq_true]; done].
    + destruct (safe_strtof field) as [q|]; split;
        [by right; apply bool_decide_eq_true | by eexists
        | by intros [f ?] | intros [?|[? ?]%bool_decide_eq_true]; done].
    + split; [by right | by eexists].
Qed.

Lemma decode_field_Raise (fd : string * (DType * option tensor)) (e : exn) :
  decode_field fd = Raise e → e = InvalidArgumentError.
Proof.
  destruct fd as [field [dt [d|]]]; unfold decode_field; repeat case_match; congruence.
Qed.

Lemma decode_csv_Raise (row : string) (e : exn) :
  decode_csv row CSV_DEFAULTS = Raise e →
  ExtractFields row = Raise e ∨ e = InvalidArgumentError.
Proof.
  unfold decode_csv. rewrite convert_CSV_DEFAULTS. cbn [mbind result_bind].
  destruct (ExtractFields row) as [tokens|e'] eqn:Htokens; [|intros [= <-]; by left].
  cbn [mbind result_bind]. intros Hfields. right. revert Hfields. case_decide as Hlen; [|congruence].
  intros Hfields. apply mapR_Raise in Hfields as (fd & _ & Hfd).
  by eapply decode_field_Raise.
Qed.

(** X1. [parse_row] returns exactly on the rows of seven fields each of
    which is empty or readable at the type of its column; every other row
    makes it raise, with the error of the field splitter or
    [InvalidArgumentError], and never with the [KeyError] of its own
    [pop]. *)
Theorem parse_row_succeeds_iff (row : string) :
  ((∃ features label, parse_row row = Ok (features, label)) ↔
   ∃ k0 k1 k2 k3 k4 k5 k6,
     ExtractFields row = Ok [k0; k1; k2; k3; k4; k5; k6] ∧
     (k0 = "" ∨ readable DT_FLOAT k0 = true) ∧
     (k1 = "" ∨ readable DT_INT32 k1 = true) ∧
     (k2 = "" ∨ readable DT_INT32 k2 = true) ∧
     (k3 = "" ∨ readable DT_FLOAT k3 = true) ∧
     (k4 = "" ∨ readable DT_FLOAT k4 = true) ∧
     (k5 = "" ∨ readable DT_FLOAT k5 = true) ∧
     (k6 = "" ∨ readable DT_FLOAT k6 = true)) ∧
  (∀ e, parse_row row = Raise e →
        ExtractFields row = Raise e ∨ e = InvalidArgumentError).
Proof.
  split; [split|].
  - intros (features & label & Hrow).
    destruct (decode_csv row CSV_DEFAULTS) as [fields|e] eqn:Hd;
      [|rewrite (parse_row_Raise _ _ Hd) in Hrow; discriminate].
    destruct (decode_csv_Ok _ _ Hd)
      as (k0 & k1 & k2 & k3 & k4 & k5 & k6 & f0 & f1 & f2 & f3 & f4 & f5 & f6
          & Htokens & _ & H0 & H1 & H2 & H3 & H4 & H5 & H6).
    exists k0, k1, k2, k3, k4, k5, k6. split; [exact Htokens|].
    repeat split;
      (eapply (proj1 (decode_field_Ok_iff _ _ _)); eexists; eassumption).
  - intros (k0 & k1 & k2 & k3 & k4 & k5 & k6 & Htokens
            & H0 & H1 & H2 & H3 & H4 & H5 & H6).
    apply (proj2 (decode_field_Ok_iff k0 DT_FLOAT (TFloat32 0.0))) in H0 as [f0 H0].
    apply (proj2 (decode_field_Ok_iff k1 DT_INT32 (TInt32 1))) in H1 as [f1 H1].
    apply (proj2 (decode_field_Ok_iff k2 DT_INT32 (TInt32 0))) in H2 as [f2 H2].
    apply (proj2 (decode_field_Ok_iff k3 DT_FLOAT (TFloat32 (-74.0)))) in H3 as [f3 H3].
    apply (proj2 (decode_field_Ok_iff k4 DT_FLOAT (TFloat32 40.0))) in H4 as [f4 H4].
    apply (proj2 (decode_field_Ok_iff k5 DT_FLOAT (TFloat32 (-74.0)))) in H5 as [f5 H5].
    apply (proj2 (decode_field_Ok_iff k6 DT_FLOAT (TFloat32 40.7))) in H6 as [f6 H6].
    do 2 eexists. apply (parse_row_Ok row f0 f1 f2 f3 f4 f5 f6).
    unfold decode_csv. rewrite convert_CSV_DEFAULTS. cbn [mbind result_bind].
    rewrite Htokens. cbn [mbind result_bind]. rewrite decide_True by done.
    cbn [zip zip_with mapR]. rewrite H0, H1, H2, H3, H4, H5, H6. reflexivity.
  - intros e Hrow. apply decode_csv_Raise.
    destruct (decode_csv row CSV_DEFAULTS) as [fields|e'] eqn:Hd.
    + destruct (decode_csv_Ok _ _ Hd)
        as (? & ? & ? & ? & ? & ? & ? & f0 & f1 & f2 & f3 & f4 & f5 & f6
            & _ & -> & _).
      rewrite (parse_row_Ok _ _ _ _ _ _ _ _ Hd) in Hrow. discriminate.
    + rewrite (parse_row_Raise _ _ Hd) in Hrow. congruence.
Qed.

(** X2. What training parses is what serving declares: for every row that
    parses, the keys of the features are the keys of the receiver tensors,
    each placeholder has the dtype of the parsed feature and a shape of one
    free dimension, and the serving features are the receiver tensors
    themselves. *)
Theorem serving_matches_training (row : string)
    (features : gmap string tensor) (label : tensor) :
  parse_row row = Ok (features, label) →
  dom features = dom (receiver_tensors (serving_input_receiver_fn ())) ∧
  (∀ key t, features !! key = Some t →
      ∃ ph, receiver_tensors (serving_input_receiver_fn ()) !! key = Some ph ∧
            ph_dtype ph = dtype t ∧ ph_shape ph = [None]) ∧
  sir_features (serving_input_receiver_fn ()) =
    receiver_tensors (serving_input_receiver_fn ()).
Proof.
  intros Hrow.
  destruct (decode_csv row CSV_DEFAULTS) as [fields|e] eqn:Hd;
    [|rewrite (parse_row_Raise _ _ Hd) in Hrow; discriminate].
  destruct (decode_csv_Ok _ _ Hd)
    as (k0 & k1 & k2 & k3 & k4 & k5 & k6 & f0 & f1 & f2 & f3 & f4 & f5 & f6
        & _ & -> & _ & H1 & H2 & H3 & H4 & H5 & H6).
  rewrite (parse_row_Ok _ _ _ _ _ _ _ _ Hd) in Hrow. injection Hrow as <- <-.
  apply (decode_field_dtype _ DT_INT32 (TInt32 1) f1 eq_refl) in H1.
  apply (decode_field_dtype _ DT_INT32 (TInt32 0) f2 eq_refl) in H2.
  apply (decode_field_dtype _ DT_FLOAT (TFloat32 (-74.0)) f3 eq_refl) in H3.
  apply (decode_field_dtype _ DT_FLOAT (TFloat32 40.0) f4 eq_refl) in H4.
  apply (decode_field_dtype _ DT_FLOAT (TFloat32 (-74.0)) f5 eq_refl) in H5.
  apply (decode_field_dtype _ DT_FLOAT (TFloat32 40.7) f6 eq_refl) in H6.
  split; [reflexivity|]. split; [|reflexivity].
  intros key t Hkey. unfold dict in Hkey. cbn [foldl fst snd] in Hkey.
  repeat (apply lookup_insert_Some in Hkey as [[<- <-]|[_ Hkey]];
          [eexists; split; [reflexivity|]; by split|]).
  by rewrite lookup_empty in Hkey.
Qed.

End RowFacts.

(** A row with a missing coordinate and the placeholder it is served by. *)
Lemma serving_matches_training_witness :
  @parse_row Plain.csv "7.0,,,,,," =
    Ok (dict [("dayofweek", TInt32 1); ("hourofday", TInt32 0);
              ("pickuplon", TFloat32 (-74.0)); ("pickuplat", TFloat32 40.0);
              ("dropofflon", TFloat32 (-74.0)); ("dropofflat", TFloat32 40.7)],
        TFloat32 7.0) ∧
  ∃ ph, receiver_tensors (serving_input_receiver_fn ()) !! "hourofday" = Some ph ∧
        ph_dtype ph = DT_INT32 ∧ ph_shape ph = [None].
Proof.
  split; [reflexivity|].
  destruct (@serving_matches_training Plain.csv "7.0,,,,,," _ (TFloat32 7.0) eq_refl)
    as (_ & Hkeys & _).
  apply (Hkeys "hourofday" (TInt32 0)). reflexivity.
Defined.

(** ** The size of a dataset *)

Section DatasetFacts.
Context `{CsvKernel} `{FileOps}.

(** X3. The dataset has one element for each line past the first of each
    file that [list_files] yields: a file of no line, or of a header alone,
    adds nothing, and a line that does not parse still counts, as an
    element that raises. *)
Theorem read_dataset_length (csv_path : pyval) (fs : gmap string (list string))
    (dataset : list (result example)) :
  read_dataset csv_path fs = Ok dataset →
  ∃ filenames,
    list_files csv_path fs = Ok filenames ∧
    length dataset =
      sum_list (map (fun filename => (length (TextLineDataset filename fs) - 1)%nat)
                    filenames).
Proof.
  intros Hread.
  destruct (list_files csv_path fs) as [filenames|e] eqn:Hfiles;
    [|unfold read_dataset in Hread; by rewrite Hfiles in Hread].
  exists filenames. split; [done|].
  rewrite (read_dataset_Ok _ _ _ Hfiles) in Hread. injection Hread as <-.
  clear Hfiles. induction filenames as [|filename filenames IH]; [done|].
  cbn [map concat sum_list sum_list_with].
  rewrite length_app, length_map, length_drop. unfold Datatypes.id.
  f_equal. exact IH.
Qed.

End DatasetFacts.

(** The two data files of the instance, read with the pattern of each. *)
Lemma read_dataset_length_witness :
  ∃ dataset,
    @read_dataset Plain.csv Plain.file_ops (PyStr "taxi-train.csv") Plain.csv_files =
      Ok dataset ∧
    length dataset = 1%nat.
Proof.
  assert (@read_dataset Plain.csv Plain.file_ops (PyStr "taxi-train.csv")
            Plain.csv_files =
          Ok [@parse_row Plain.csv "12.5,2,17,-73.9,40.7,-73.9,40.8"]) as Hread
    by reflexivity.
  destruct (@read_dataset_length Plain.csv Plain.file_ops (PyStr "taxi-train.csv")
              Plain.csv_files _ Hread) as (filenames & Hfiles & Hlength).
  eexists. split; [exact Hread|]. reflexivity.
Defined.

(** ** Runs, leftovers and ill-typed parameters *)


Section RunFacts.
Context `{CsvKernel} `{FileOps} `{Trainer}.


(** X7. A number of steps that is not a number ([None], or the text of a
    number) makes [create_model] raise [TypeError] at its division, and
    [train_and_evaluate] raise it before anything is deleted: the world is
    left as it was. *)
Theorem train_and_evaluate_steps_not_a_number (params : gmap string pyval)
    (OUTDIR TRAIN_DATA_PATH EVAL_DATA_PATH TRAIN_STEPS : pyval) (w : world) :
  params !! "output_dir" = Some OUTDIR →
  params !! "train_data_path" = Some TRAIN_DATA_PATH →
  params !! "eval_data_path" = Some EVAL_DATA_PATH →
  params !! "train_steps" = Some TRAIN_STEPS →
  TRAIN_STEPS = PyNone ∨ (∃ s, TRAIN_STEPS = PyStr s) →
  create_model OUTDIR TRAIN_STEPS = Raise TypeError ∧
  train_and_evaluate params w = (w, Raise TypeError).
Proof.
  intros Hout Htrain Heval Hsteps Hkind.
  assert (create_model OUTDIR TRAIN_STEPS = Raise TypeError) as Hmodel
    by (by destruct Hkind as [->|[s ->]]).
  split; [exact Hmodel|].
  unfold train_and_evaluate, getitem. rewrite Hout, Htrain, Heval, Hsteps.
  cbv beta iota delta [mbind M_bind pure]. by rewrite Hmodel.
Qed.

End RunFacts.


(** The number of steps passed as text, as a command line without
    [type = int] would. *)
Lemma train_and_evaluate_steps_not_a_number_witness :
  <["train_steps" := PyStr "1000"]> Plain.local_params !! "train_steps" =
    Some (PyStr "1000") ∧
  @train_and_evaluate Plain.csv Plain.file_ops Plain.trainer
    (<["train_steps" := PyStr "1000"]> Plain.local_params) Plain.second_run =
  (Plain.second_run, Raise TypeError).
Proof.
  split; [reflexivity|].
  apply (@train_and_evaluate_steps_not_a_number Plain.csv Plain.file_ops Plain.trainer
           (<["train_steps" := PyStr "1000"]> Plain.local_params)
           (PyStr "taxi_trained") (PyStr "taxi-train.csv") (PyStr "taxi-valid.csv")
           (PyStr "1000")); try reflexivity.
  right. by exists "1000".
Defined.

(** ** Checkpoints *)

(** X8. A run is cut into about ten checkpoint intervals: the interval
    configured in a model that [create_model] returns is positive, at most
    ten full intervals fit in [train_steps], exactly ten when
    [train_steps >= 100], and a longer run never gets a shorter interval. *)
Theorem checkpoints_per_run `{Trainer} (model_dir : pyval) (train_steps : Z)
    (model : Estimator) :
  create_model model_dir (PyInt train_steps) = Ok model →
  ∃ interval,
    save_checkpoints_steps (config model) = PyInt interval ∧
    (0 < interval)%Z ∧
    (train_steps `div` interval ≤ 10)%Z ∧
    ((100 ≤ train_steps)%Z → train_steps `div` interval = 10) ∧
    ∀ longer model',
      (train_steps ≤ longer)%Z →
      create_model model_dir (PyInt longer) = Ok model' →
      ∃ interval',
        save_checkpoints_steps (config model') = PyInt interval' ∧
        (interval ≤ interval')%Z.
Proof.
  intros [Hinterval _]%create_model_config.
  eexists. split; [exact Hinterval|].
  pose proof (Z.div_mod train_steps 10 ltac:(lia)) as Hdiv.
  pose proof (Z.mod_pos_bound train_steps 10 ltac:(lia)) as Hmod.
  split; [lia|]. split; [|split].
  - apply Z.lt_succ_r, Z.div_lt_upper_bound; lia.
  - intros Hlarge. symmetry.
    apply (Z.div_unique_pos _ _ _
             (train_steps - 10 * (Z.max 10 (train_steps `div` 10)))); lia.
  - intros longer model' Hlonger [Hinterval' _]%create_model_config.
    eexists. split; [exact Hinterval'|].
    pose proof (Z.div_le_mono train_steps longer 10 ltac:(lia) Hlonger). lia.
Qed.

(** A thousand steps: ten intervals of a hundred. *)
Lemma checkpoints_per_run_witness :
  ∃ model interval,
    @create_model Plain.trainer (PyStr "taxi_trained") (PyInt 1000) = Ok model ∧
    save_checkpoints_steps (config model) = PyInt interval ∧
    (0 < interval)%Z ∧ 1000 `div` interval = 10.
Proof.
  assert (∃ model, @create_model Plain.trainer (PyStr "taxi_trained") (PyInt 1000) =
                   Ok model) as (model & Hmodel) by (eexists; reflexivity).
  destruct (@checkpoints_per_run Plain.trainer (PyStr "taxi_trained") 1000 model Hmodel)
    as (interval & Hinterval & Hpositive & _ & Hten & _).
  exists model, interval. split; [exact Hmodel|]. split; [exact Hinterval|].
  split; [exact Hpositive|]. apply Hten. lia.
Defined.

(** ** The metric *)

Lemma squeeze_Ok (input : list (list R)) (ps : list R) :
  squeeze input (-1) = Ok ps → input = (fun p => [p]) <$> ps.
Proof.
  unfold squeeze. rewrite decide_True by (by left).
  revert ps. induction input as [|row input IH]; intros ps Hs.
  - by injection Hs as <-.
  - apply mapR_cons_Ok in Hs as (p & ps' & Hrow & Hinput & ->).
    destruct row as [|x [|]]; try discriminate. injection Hrow as ->.
    cbn. f_equal. by apply IH.
Qed.

Lemma squeeze_Raise (input : list (list R)) (e : exn) :
  squeeze input (-1) = Raise e → e = ValueError.
Proof.
  unfold squeeze. rewrite decide_True by (by left).
  intros (row & _ & Hrow)%mapR_Raise. destruct row as [|x [|]]; congruence.
Qed.

(** X9. [my_rmse] returns exactly when the predictions hold, under the key
    [predictions], a tensor of shape [n, 1] for the [n] labels: then it
    returns a dictionary of the one key [rmse], whatever other keys the
    predictions have; without the key it raises [KeyError], and with another
    shape or another number of rows [ValueError]. *)
Theorem my_rmse_defined (labels : list R) (predictions : gmap string (list (list R))) :
  (∀ m, my_rmse labels predictions = Ok m ↔
        ∃ ps, predictions !! "predictions" = Some ((fun p => [p]) <$> ps) ∧
              length labels = length ps ∧
              m = dict [("rmse", sqrt (mean (squared_errors labels ps)))]) ∧
  (∀ m, my_rmse labels predictions = Ok m → dom m = ({["rmse"]} : gset string)) ∧
  (∀ e, my_rmse labels predictions = Raise e →
        (predictions !! "predictions" = None ∧ e = KeyError "predictions") ∨
        (is_Some (predictions !! "predictions") ∧ e = ValueError)).
Proof.
  assert (∀ m, my_rmse labels predictions = Ok m →
               ∃ ps, predictions !! "predictions" = Some ((fun p => [p]) <$> ps) ∧
                     length labels = length ps ∧
                     m = dict [("rmse", sqrt (mean (squared_errors labels ps)))])
    as Hdefined.
  { intros m. unfold my_rmse, getitem.
    destruct (predictions !! "predictions") as [p|]; [|done].
    cbn [mbind result_bind].
    destruct (squeeze p (-1)) as [ps|] eqn:Hsqueeze; [|done].
    cbn [mbind result_bind]. unfold root_mean_squared_error.
    case_decide as Hlen; [|done]. intros [= <-].
    exists ps. by rewrite (squeeze_Ok _ _ Hsqueeze). }
  split; [|split].
  - intros m. split; [apply Hdefined|].
    intros (ps & Hp & Hlen & ->). unfold my_rmse, getitem. rewrite Hp.
    cbn [mbind result_bind]. rewrite squeeze_columns. cbn [mbind result_bind].
    unfold root_mean_squared_error. rewrite decide_True by done. reflexivity.
  - intros m (ps & _ & _ & ->)%Hdefined. unfold dict. cbn [foldl fst snd].
    by rewrite dom_insert_L, dom_empty_L, union_empty_r_L.
  - intros e. unfold my_rmse, getitem.
    destruct (predictions !! "predictions") as [p|]; [|intros [= <-]; by left].
    cbn [mbind result_bind]. intros He. right. split; [done|].
    destruct (squeeze p (-1)) as [ps|e'] eqn:Hsqueeze.
    + cbn [mbind result_bind] in He. unfold root_mean_squared_error in He.
      case_decide; [done|]. by injection He as <-.
    + injection He as <-. by eapply squeeze_Raise.
Qed.

(** ** More on the command line *)

Section CommandLineMore.
Context `{Text}.

(** X11. The dictionary that [parse_args] returns is typed by the
    parser: it has the five keys and no other, the three required paths are
    strings, the number of steps is an integer, and [job_dir] is a string or
    [None]; but an option whose value is written [--], as in
    [--output_dir=--], holds the empty list instead. *)
Theorem parse_args_typed (argv : list string) (args : gmap string pyval) :
  parse_args parser argv = Ok args →
  (∀ key, is_Some (args !! key) ↔
          key ∈ ["train_data_path"; "train_steps"; "eval_data_path";
                 "output_dir"; "job_dir"]) ∧
  (∀ d, d ∈ ["train_data_path"; "eval_data_path"; "output_dir"] →
        args !! d = Some (PyList []) ∨ ∃ s, args !! d = Some (PyStr s)) ∧
  (args !! "train_steps" = Some (PyList []) ∨
   ∃ n, args !! "train_steps" = Some (PyInt n)) ∧
  (args !! "job_dir" = Some PyNone ∨ args !! "job_dir" = Some (PyList []) ∨
   ∃ s, args !! "job_dir" = Some (PyStr s)).
Proof.
  intros Hargs. split; [|by apply (parse_args_values argv)].
  intros key. rewrite <- elem_of_dom, (parse_args_dom _ _ Hargs).
  rewrite !elem_of_union, !elem_of_singleton, !elem_of_cons, elem_of_nil. tauto.
Qed.

(** A command line that is read to its end can be read on from there. *)
Lemma consume_app (p : list Action) (argv more : list string)
    (st st' : gmap string pyval * gset string) :
  consume p argv st = Ok st' →
  consume p (argv ++ more) st = consume p more st'.
Proof.
  remember (length argv) as n eqn:Hn.
  revert argv st Hn. induction (lt_wf n) as [n _ IH].
  intros argv st -> Hconsume.
  destruct argv as [|arg_string rest]; [by injection Hconsume as <-|].
  cbn [consume app] in Hconsume |- *.
  destruct (parse_optional p arg_string) as [|a e| |]; try done.
  destruct (kind a); [|done].
  destruct e as [s|].
  - destruct (get_values a [s]) as [v|]; [|done].
    cbn [mbind result_bind] in Hconsume |- *.
    by apply (IH (length rest)); [cbn; lia|..].
  - destruct rest as [|s rest']; [done|]. cbn [app].
    destruct (parse_optional p s); try done.
    destruct (get_values a [s]) as [v|]; [|done].
    cbn [mbind result_bind] in Hconsume |- *.
    by apply (IH (length rest')); [cbn; lia|..].
Qed.

(** Every string of a command line that is read to its end is a value or
    an option that stores one; a value written after [=] is one that the
    option accepts. *)
Lemma consume_options (p : list Action) (argv : list string)
    (st st' : gmap string pyval * gset string) (arg_string : string) :
  consume p argv st = Ok st' → arg_string ∈ argv →
  match parse_optional p arg_string with
  | Positional => True
  | Optional a e =>
      kind a = store ∧ ∀ s, e = Some s → ∃ v, get_values a [s] = Ok v
  | Unknown | Ambiguous => False
  end.
Proof.
  remember (length argv) as n eqn:Hn.
  revert argv st Hn. induction (lt_wf n) as [n _ IH].
  intros argv st -> Hconsume Hin.
  destruct argv as [|first rest]; [by apply elem_of_nil in Hin|].
  cbn [consume] in Hconsume.
  destruct (parse_optional p first) as [|a e| |] eqn:Hfirst; try done.
  destruct (kind a) eqn:Hkind; [|done].
  destruct e as [s|].
  - destruct (get_values a [s]) as [v|] eqn:Hv; [|done].
    cbn [mbind result_bind] in Hconsume.
    apply elem_of_cons in Hin as [->|Hin].
    + rewrite Hfirst. split; [done|]. intros s' [= <-]. by exists v.
    + by apply (IH (length rest) ltac:(cbn; lia) rest _ eq_refl Hconsume).
  - destruct rest as [|s rest']; [done|].
    destruct (parse_optional p s) eqn:Hs; try done.
    destruct (get_values a [s]) as [v|] eqn:Hv; [|done].
    cbn [mbind result_bind] in Hconsume.
    apply elem_of_cons in Hin as [->|Hin]; [by rewrite Hfirst|].
    apply elem_of_cons in Hin as [->|Hin]; [by rewrite Hs|].
    by apply (IH (length rest') ltac:(cbn; lia) rest' _ eq_refl Hconsume).
Qed.

(** X12. The last occurrence of an option wins: [--option=value] put at
    the end of a command line that parses gives the same dictionary but for
    the destination of the option, which holds the new value: a string, an
    integer for [--train_steps], or the empty list for a value written
    [--]. *)
Theorem parse_args_last_wins (argv : list string) (args : gmap string pyval)
    (option_string v : string) (value : pyval) :
  parse_args parser argv = Ok args →
  option_string ∈ ["--train_data_path"; "--train_steps"; "--eval_data_path";
                   "--output_dir"; "--job-dir"] →
  (if String.eqb v "--" then value = PyList []
   else if decide (option_string = "--train_steps")
        then ∃ n, py_int v = Some n ∧ value = PyInt n
        else value = PyStr v) →
  parse_args parser (argv ++ [option_string ++ "=" ++ v]) =
  Ok (<[dest_of option_string := value]> args).
Proof.
  intros (seen & Hconsume & Hrequired)%parse_args_Ok Hoption Hvalue.
  destruct (parse_optional_explicit option_string v Hoption)
    as (a & Hclass & Ha & Hkind & Hdest & Htype).
  assert (get_values a [v] = Ok value) as Hv.
  { rewrite get_values_one. destruct (String.eqb v "--"); [by rewrite Hvalue|].
    rewrite Htype. destruct (decide (option_string = "--train_steps")).
    - destruct Hvalue as (n & Hn & ->). cbn. by rewrite Hn.
    - by rewrite Hvalue. }
  unfold parse_args. rewrite (consume_app _ _ _ _ _ Hconsume).
  cbn [consume]. rewrite Hclass, Hkind. cbn [mbind result_bind]. rewrite Hv.
  cbn [mbind result_bind takes fst snd consume].
  rewrite (proj2 (forallb_forall _ parser)); [by rewrite Hdest|].
  intros a' Ha'%list_elem_of_In.
  destruct (required a') eqn:Hreq'; [|done].
  apply bool_decide_eq_true, elem_of_union. right. by apply Hrequired.
Qed.

(** X13. A command line is refused, and the process ends, as soon as one
    of its strings is an option the parser does not know or cannot tell
    apart, or asks for help; as soon as it starts with a value; as soon as
    [--train_steps=] is followed by what is neither an integer nor [--]; and
    as soon as one of its strings is the separator [--], after which the
    parser has nothing to take. *)
Theorem parse_args_refuses (argv : list string) :
  (∀ arg_string,
      arg_string ∈ argv →
      match parse_optional parser arg_string with
      | Positional => False
      | Optional a _ => kind a = help
      | Unknown | Ambiguous => True
      end →
      parse_args parser argv = Raise SystemExit) ∧
  (∀ arg_string rest,
      argv = arg_string :: rest → parse_optional parser arg_string = Positional →
      parse_args parser argv = Raise SystemExit) ∧
  (∀ s, "--train_steps=" ++ s ∈ argv → s ≠ "--" → py_int s = None →
        parse_args parser argv = Raise SystemExit) ∧
  ("--" ∈ argv → parse_args parser argv = Raise SystemExit).
Proof.
  assert ((∀ args, parse_args parser argv ≠ Ok args) →
          parse_args parser argv = Raise SystemExit) as Hexit.
  { intros Hnot. destruct (parse_args parser argv) as [args|e] eqn:Hargs;
      [by destruct (Hnot args)|]. by rewrite (parse_args_Raise _ _ Hargs). }
  assert (∀ arg_string,
            arg_string ∈ argv →
            match parse_optional parser arg_string with
            | Positional => False
            | Optional a _ => kind a = help
            | Unknown | Ambiguous => True
            end →
            parse_args parser argv = Raise SystemExit) as Hrefused.
  { intros arg_string Hin Hclass. apply Hexit.
    intros args (seen & Hconsume & _)%parse_args_Ok.
    pose proof (consume_options _ _ _ _ _ Hconsume Hin) as Hok.
    destruct (parse_optional parser arg_string) as [|a e| |]; try done.
    destruct Hok as [Hkind _]. congruence. }
  split; [exact Hrefused|]. split; [|split; [|intros Hin; by apply (Hrefused "--")]].
  - intros arg_string rest -> Hclass. unfold parse_args. cbn [consume].
    by rewrite Hclass.
  - intros s Hin Hsep Hint. apply Hexit.
    intros args (seen & Hconsume & _)%parse_args_Ok.
    pose proof (consume_options _ _ _ _ _ Hconsume Hin) as Hok.
    destruct (parse_optional_explicit "--train_steps" s) as (a & Hclass & _ & _ & _ & Htype).
    { rewrite !elem_of_cons. tauto. }
    change ("--train_steps" ++ "=" ++ s) with ("--train_steps=" ++ s) in Hclass.
    rewrite Hclass in Hok. destruct Hok as [_ Hvalue].
    destruct (Hvalue s eq_refl) as (v & Hv).
    rewrite get_values_one in Hv.
    assert (String.eqb s "--" = false) as Hne by (by apply String.eqb_neq).
    rewrite Hne in Hv.
    assert (type a = type_int) as Hint' by (rewrite Htype; reflexivity).
    rewrite Hint' in Hv. unfold get_value in Hv. rewrite Hint in Hv. discriminate.
Qed.

End CommandLineMore.

Lemma parse_args_typed_witness :
  @parse_args Plain.text parser
    ["--train_data_path=taxi-train.csv"; "--eval_data_path=taxi-valid.csv";
     "--output_dir=--"] =
    Ok (<["output_dir" := PyList []]>
          (<["train_steps" := PyInt 1000]> Plain.local_params)) ∧
  ∃ s, <["output_dir" := PyList []]>
         (<["train_steps" := PyInt 1000]> Plain.local_params)
         !! "train_data_path" = Some (PyStr s).
Proof.
  assert (@parse_args Plain.text parser
            ["--train_data_path=taxi-train.csv"; "--eval_data_path=taxi-valid.csv";
             "--output_dir=--"] =
          Ok (<["output_dir" := PyList []]>
                (<["train_steps" := PyInt 1000]> Plain.local_params))) as Hargs
    by reflexivity.
  split; [exact Hargs|].
  destruct (@parse_args_typed Plain.text _ _ Hargs) as (_ & Hpaths & _).
  destruct (Hpaths "train_data_path") as [Hlist|Hstr];
    [rewrite !elem_of_cons; tauto|discriminate Hlist|exact Hstr].
Defined.

(** The local command line with its output directory given again. *)
Lemma parse_args_last_wins_witness :
  @parse_args Plain.text parser Plain.local_argv = Ok Plain.local_params ∧
  Plain.local_params !! "output_dir" = Some (PyStr "taxi_trained") ∧
  @parse_args Plain.text parser (Plain.local_argv ++ ["--output_dir=elsewhere"]) =
    Ok (<["output_dir" := PyStr "elsewhere"]> Plain.local_params).
Proof.
  split; [reflexivity|]. split; [reflexivity|].
  apply (@parse_args_last_wins Plain.text Plain.local_argv Plain.local_params
           "--output_dir" "elsewhere" (PyStr "elsewhere")); [reflexivity| |reflexivity].
  rewrite !elem_of_cons. tauto.
Defined.

(** The job directory spelled with an underscore is not an option of the
    parser. *)
Lemma parse_args_refuses_witness :
  @parse_optional Plain.text parser "--job_dir=gs://bucket/taxifare" = Unknown ∧
  @parse_args Plain.text parser
    (Plain.local_argv ++ ["--job_dir=gs://bucket/taxifare"]) = Raise SystemExit.
Proof.
  split; [reflexivity|].
  apply (@parse_args_refuses Plain.text
           (Plain.local_argv ++ ["--job_dir=gs://bucket/taxifare"]))
    with (arg_string := "--job_dir=gs://bucket/taxifare"); [|exact I].
  apply elem_of_app. right. by left.
Defined.

(** ** The script as a whole *)

(** X14. The script ends in one of three ways.  The command line is
    refused: the process exits and nothing is touched.  The command line
    parses but no model or training spec can be built from it (a number of
    steps that is not positive or is the empty list of [--train_steps=--], an
    empty output directory): [TypeError] or [ValueError], and nothing is
    touched.  Otherwise it reaches the training loop, with the model and the
    training spec built from the parsed values, in the world where the
    output directory has been deleted.  So it never fails for a missing
    parameter, and deletes nothing unless it goes on to train. *)
Theorem main_outcomes `{CsvKernel} `{FileOps} `{Trainer} `{Text}
    (argv : list string) (w : world) :
  (parse_args parser argv = Raise SystemExit ∧ main argv w = (w, Raise SystemExit)) ∨
  ∃ args OUTDIR TRAIN_DATA_PATH EVAL_DATA_PATH TRAIN_STEPS,
    parse_args parser argv = Ok args ∧
    args !! "output_dir" = Some OUTDIR ∧
    args !! "train_data_path" = Some TRAIN_DATA_PATH ∧
    args !! "eval_data_path" = Some EVAL_DATA_PATH ∧
    args !! "train_steps" = Some TRAIN_STEPS ∧
    ((∃ e, (e = TypeError ∨ e = ValueError) ∧
           (model ← create_model OUTDIR TRAIN_STEPS;
            new_TrainSpec (train_input_fn TRAIN_DATA_PATH 128) TRAIN_STEPS) = Raise e ∧
           main argv w = (w, Raise e)) ∨
     (∃ model train_spec,
        create_model OUTDIR TRAIN_STEPS = Ok model ∧
        new_TrainSpec (train_input_fn TRAIN_DATA_PATH 128) TRAIN_STEPS = Ok train_spec ∧
        main argv w =
        estimator_train_and_evaluate model train_spec
          {| es_input_fn := eval_input_fn EVAL_DATA_PATH 128;
             steps := None; start_delay_secs := 1; throttle_secs := 1;
             exporters := {| exporter_name := "exporter";
                             exp_serving_input_receiver_fn :=
                               serving_input_receiver_fn |} |}
          (rmtree OUTDIR true (set_verbosity INFO w).1).1)).
Proof.
  destruct (parse_args parser argv) as [args|e] eqn:Hargs.
  - right.
    destruct (parse_args_values _ _ Hargs) as (Hpaths & Hsteps & _).
    assert (∀ d, d ∈ ["train_data_path"; "eval_data_path"; "output_dir"] →
                 ∃ v, args !! d = Some v) as Hthere.
    { intros d Hd. destruct (Hpaths d Hd) as [?|[s ?]]; by eexists. }
    destruct (Hthere "output_dir") as [OUTDIR Hout]; [rewrite !elem_of_cons; tauto|].
    destruct (Hthere "train_data_path") as [tdp Htrain]; [rewrite !elem_of_cons; tauto|].
    destruct (Hthere "eval_data_path") as [edp Heval]; [rewrite !elem_of_cons; tauto|].
    assert (∃ steps, args !! "train_steps" = Some steps ∧
                     (steps = PyList [] ∨ ∃ n, steps = PyInt n))
      as (steps & Hsteps' & Hkind).
    { destruct Hsteps as [?|[n ?]]; eexists; (split; [eassumption|]);
        [by left|right; by exists n]. }
    exists args, OUTDIR, tdp, edp, steps. do 5 (split; [done|]).
    assert (main argv w = train_and_evaluate args w) as ->
      by (unfold main, mbind, M_bind, pure; by rewrite Hargs).
    destruct (model ← create_model OUTDIR steps;
              new_TrainSpec (train_input_fn tdp 128) steps) as [train_spec|e] eqn:Hbuilt.
    + right. apply bind_Ok in Hbuilt as (model & Hmodel & Hspec).
      exists model, train_spec. do 2 (split; [done|]).
      exact (train_and_evaluate_run _ _ _ _ _ _ _ _ Hout Htrain Heval Hsteps' Hmodel Hspec).
    + left. exists e. split; [|split; [done|by eapply train_and_evaluate_refused]].
      destruct Hkind as [->|[n ->]]; [left; by injection Hbuilt|right].
      destruct (create_model OUTDIR (PyInt n)) as [model|e'] eqn:Hmodel.
      * cbn [mbind result_bind] in Hbuilt. unfold new_TrainSpec, py_lt in Hbuilt.
        destruct (Z.ltb 0 n); [done|by injection Hbuilt].
      * injection Hbuilt as <-. unfold create_model in Hmodel.
        cbn [py_floordiv] in Hmodel. rewrite decide_False in Hmodel by done.
        cbn [mbind result_bind] in Hmodel. rewrite py_max_10 in Hmodel.
        cbn [mbind result_bind] in Hmodel.
        destruct (new_RunConfig _ _ OUTDIR) as [config|e''] eqn:Hconfig; [done|].
        injection Hmodel as <-. by eapply new_RunConfig_Raise.
  - left. pose proof (parse_args_Raise _ _ Hargs) as ->. split; [done|].
    unfold main, mbind, M_bind, pure. by rewrite Hargs.
Qed.

(** The local command line on a second run, and the same with no output
    directory after [--output_dir=]. *)
Lemma main_outcomes_witness :
  (∃ model train_spec eval_spec w',
     @main Plain.csv Plain.file_ops Plain.trainer Plain.text
       Plain.local_argv Plain.second_run =
     @estimator_train_and_evaluate Plain.trainer model train_spec eval_spec w' ∧
     files w' !! "taxi_trained/checkpoint" = None) ∧
  @main Plain.csv Plain.file_ops Plain.trainer Plain.text
    ["--train_data_path=taxi-train.csv"; "--eval_data_path=taxi-valid.csv";
     "--output_dir="] Plain.second_run = (Plain.second_run, Raise ValueError).
Proof.
  split; [|reflexivity].
  destruct (@main_outcomes Plain.csv Plain.file_ops Plain.trainer Plain.text
              Plain.local_argv Plain.second_run)
    as [[Hexit _]|(args & OUTDIR & tdp & edp & steps & Hargs & Hout & Htrain & Heval
                   & Hsteps & Hrun)];
    [discriminate Hexit|].
  assert (@parse_args Plain.text parser Plain.local_argv = Ok Plain.local_params)
    as Hlocal by reflexivity.
  rewrite Hlocal in Hargs. injection Hargs as <-.
  injection Hout as <-. injection Htrain as <-. injection Heval as <-.
  injection Hsteps as <-.
  destruct Hrun as [(e & _ & Hbuilt & _)|(model & train_spec & Hmodel & Hspec & Hrun)];
    [discriminate Hbuilt|].
  eexists model, train_spec, _, _. split; [exact Hrun|].
  reflexivity.
Defined.

(** ** The spelling of the output directory *)





